(** * The webpage rendering server of react-isomorphic-render

    A shallow embedding of [source/page-server/web server.js]: the Koa
    application built by [start_webpage_rendering_server], made of an
    error-handling middleware, the custom middleware of the options and
    the isomorphic rendering middleware.

    The collaborators the file imports ([render], [render_stack_trace],
    the monitoring client, the logger, the Koa context) are not part of
    it.  Calls to them are recorded as events of a trace, in the order in
    which the code makes them; what [render], [render_stack_trace], the
    error handler and the custom middleware do is a parameter of the
    model.  Of the setters of [ctx] the one of the status throws on a
    value it does not accept: what it accepts and what it throws is the
    framework's and a parameter of the model.  The monitoring client,
    the logger, the console and the other setters are taken not to
    throw, and what is thrown is an error object.  What Koa does with
    the assignments to [ctx] once the middleware chain has finished (the
    default status, the body it sends when none was assigned, its answer
    when the chain rejects) is Koa's business and is not embedded. *)

From Stdlib Require Import String Ascii List ZArith Bool Lia.
Import ListNotations.
Open Scope string_scope.
Open Scope list_scope.

(** ** JavaScript values *)

(** The primitive values that flow through the server.  Numbers are the
    integers: HTTP statuses are integers, and the code only tests numbers
    for truthiness and for [typeof]. *)
Inductive JSValue : Type :=
| JUndefined
| JNull
| JBool (b : bool)
| JNum (n : Z)
| JStr (s : string).

(** [if (v)], [v || w]: the ToBoolean conversion. *)
Definition truthy (v : JSValue) : bool :=
  match v with
  | JUndefined | JNull => false
  | JBool b => b
  | JNum n => negb (n =? 0)%Z
  | JStr s => negb (s =? "")
  end.

(** [a || b] *)
Definition js_or (a b : JSValue) : JSValue :=
  if truthy a then a else b.

(** [typeof v === 'number'] *)
Definition typeof_number (v : JSValue) : bool :=
  match v with
  | JNum _ => true
  | _ => false
  end.

(** An error object, with the three properties the server reads. *)
Record JSError : Type := mkError {
  error_status : JSValue;
  error_message : JSValue;
  error_stack : JSValue
}.

(** What [render] resolves to, as the server destructures it:
    [const { status, content, redirect } = await render(...)]. *)
Record RenderResult : Type := mkResult {
  status : JSValue;
  content : JSValue;
  redirect : JSValue
}.

(** What [render_stack_trace] returns, as the server destructures it. *)
Record StackTrace : Type := mkStackTrace {
  response_status : JSValue;
  response_body : JSValue
}.

(** The part of [ctx.request] the server reads; [render] is given the
    request as a whole. *)
Record Request : Type := mkRequest {
  originalUrl : string
}.

(** A call that returns (a promise that resolves) or throws (rejects). *)
Inductive Outcome (A : Type) : Type :=
| Resolved (a : A)
| Rejected (e : JSError).
Arguments Resolved {A} a.
Arguments Rejected {A} e.

(** ** Events *)

(** Assignments to the Koa context, and [ctx.redirect]. *)
Inductive CtxOp : Type :=
| SetStatus (v : JSValue)
| SetBody (v : JSValue)
| SetType (t : string)
| SetMessage (v : JSValue)
| Redirect (to : JSValue).

(** The argument of [console.log]: [error.stack || error] is a value or
    the error object itself. *)
Inductive LogArg : Type :=
| LogValue (v : JSValue)
| LogObject (e : JSError).

Inductive Event : Type :=
| Increment (name : string)
| Started (name : string)
| Finished (name : string)
| CallRender (request : Request)
| CallErrorHandler (error : JSError) (url : string)
| CallRenderStackTrace (error : JSError) (print_error : JSValue)
| ConsoleLog (arg : LogArg)
| LogError (error : JSError)
| Ctx (op : CtxOp).

(** ** Statements: a trace and a completion *)

Inductive Completion (A : Type) : Type :=
| Normal (a : A)
| Return (v : JSValue)
| Throw (e : JSError).
Arguments Normal {A} a.
Arguments Return {A} v.
Arguments Throw {A} e.

Definition M (A : Type) : Type := (list Event * Completion A)%type.

Definition trace {A} (m : M A) : list Event := fst m.
Definition completion {A} (m : M A) : Completion A := snd m.

Definition ret {A} (a : A) : M A := ([], Normal a).

Definition bind {A B} (m : M A) (f : A -> M B) : M B :=
  match m with
  | (t, Normal a) => let (t', c) := f a in (t ++ t', c)
  | (t, Return v) => (t, Return v)
  | (t, Throw e) => (t, Throw e)
  end.

Declare Scope js_scope.
Delimit Scope js_scope with js.
Notation "x <- c1 ;; c2" := (bind c1 (fun x => c2))
  (at level 61, c1 at next level, right associativity) : js_scope.
Notation "c1 ;; c2" := (bind c1 (fun _ => c2))
  (at level 61, right associativity) : js_scope.
Open Scope js_scope.

Definition emit (e : Event) : M unit := ([e], Normal tt).

(** [monitoring.increment(name)] *)
Definition increment (name : string) : M unit := emit (Increment name).

(** [monitoring.started(name)]: starts the timer and returns the function
    that stops it. *)
Definition started (name : string) : M (M unit) :=
  ([Started name], Normal (emit (Finished name))).

(** [return v] *)
Definition return_ {A} (v : JSValue) : M A := ([], Return v).

(** [throw e] *)
Definition throw {A} (e : JSError) : M A := ([], Throw e).

(** [await p], and the call of a synchronous function that may throw. *)
Definition await {A} (o : Outcome A) : M A :=
  match o with
  | Resolved a => ret a
  | Rejected e => throw e
  end.

(** [try { body } catch (error) { handler }] *)
Definition try_catch {A} (body : M A) (handler : JSError -> M A) : M A :=
  match body with
  | (t, Throw e) => let (t', c) := handler e in (t ++ t', c)
  | _ => body
  end.

(** [try { body } finally { fin }]: [fin] runs whatever the completion of
    [body], which is kept unless [fin] itself returns or throws. *)
Definition try_finally {A} (body : M A) (fin : M unit) : M A :=
  let (t, c) := body in
  match fin with
  | (t', Normal _) => (t ++ t', c)
  | (t', Return v) => (t ++ t', Return v)
  | (t', Throw e) => (t ++ t', Throw e)
  end.

(** The call of an (async) function with the given body, awaited. *)
Definition call {A} (body : M A) : M JSValue :=
  match body with
  | (t, Normal _) => (t, Normal JUndefined)
  | (t, Return v) => (t, Normal v)
  | (t, Throw e) => (t, Throw e)
  end.

(** The call of a function given as a value of the model: [next()]. *)
Definition invoke (f : M JSValue) : M JSValue :=
  match f with
  | (t, Return v) => (t, Normal v)
  | _ => f
  end.

(** ** The framework *)

(** The setter of [ctx.status]: Koa asserts that the value is a status
    code it accepts and throws the assertion error otherwise. *)
Record Koa : Type := mkKoa {
  status_accepted : JSValue -> bool;
  status_error : JSValue -> JSError
}.

(** [ctx.status = v] *)
Definition set_status (koa : Koa) (v : JSValue) : M unit :=
  if status_accepted koa v
  then emit (Ctx (SetStatus v))
  else throw (status_error koa v).

(** ** Trailing question mark *)

Definition question_mark : ascii := "?"%char.

(** [s.replace(/\?$/, '')]: without the [m] flag [$] only matches at the
    end of the input, so the one possible match is a last character [?]. *)
Fixpoint replace_trailing_question_mark (s : string) : string :=
  match s with
  | EmptyString => EmptyString
  | String c EmptyString =>
      if Ascii.eqb c question_mark then EmptyString else s
  | String c rest => String c (replace_trailing_question_mark rest)
  end.

(** ** Options and collaborators *)

(** What an error handler can do with [(error, { url, redirect })]: call
    [redirect], return, or throw. *)
Inductive HandlerProgram : Type :=
| HReturn (v : JSValue)
| HThrow (e : JSError)
| HRedirect (to : JSValue) (k : HandlerProgram).

Definition ErrorHandler : Type := JSError -> string -> HandlerProgram.

(** A Koa middleware [(ctx, next) => ...], as a function of the request
    and of the rest of the chain.  A middleware is taken to call [next]
    at most once: Koa rejects a second call, where a function of this
    type would run the rest of the chain again. *)
Definition Middleware : Type := Request -> M JSValue -> M JSValue.

Record Options : Type := mkOptions {
  catch : option ErrorHandler;
  middleware : option (list Middleware);
  log : bool;
  print_error : JSValue
}.

(** [process.env.NODE_ENV !== 'production'] *)
Definition development (NODE_ENV : option string) : bool :=
  match NODE_ENV with
  | Some v => negb (v =? "production")
  | None => true
  end.

(** [error_handler(error, { url, redirect })], with the [redirect] the
    server passes. *)
Fixpoint run_handler (redirect : JSValue -> M JSValue) (p : HandlerProgram)
  : M JSValue :=
  match p with
  | HReturn v => ret v
  | HThrow e => throw e
  | HRedirect to k => redirect to ;; run_handler redirect k
  end.

(** ** What was assigned to the context *)

(** [None]: never assigned, left to the framework. *)
Record Response : Type := mkResponse {
  res_status : option JSValue;
  res_body : option JSValue;
  res_type : option string;
  res_message : option JSValue;
  res_location : option JSValue
}.

Definition untouched : Response := mkResponse None None None None None.

Definition assign (r : Response) (op : CtxOp) : Response :=
  match op with
  | SetStatus v =>
      mkResponse (Some v) (res_body r) (res_type r) (res_message r)
        (res_location r)
  | SetBody v =>
      mkResponse (res_status r) (Some v) (res_type r) (res_message r)
        (res_location r)
  | SetType t =>
      mkResponse (res_status r) (res_body r) (Some t) (res_message r)
        (res_location r)
  | SetMessage v =>
      mkResponse (res_status r) (res_body r) (res_type r) (Some v)
        (res_location r)
  | Redirect to =>
      mkResponse (res_status r) (res_body r) (res_type r) (res_message r)
        (Some to)
  end.

Definition response_after (r : Response) (t : list Event) : Response :=
  fold_left (fun r e => match e with Ctx op => assign r op | _ => r end) t r.

Definition response_of (t : list Event) : Response :=
  response_after untouched t.

(** ** Observations on traces *)

(** The events that produce a response: a redirect, a body, or the
    message of the generic error response. *)
Definition is_response_action (e : Event) : bool :=
  match e with
  | Ctx (Redirect _) | Ctx (SetBody _) | Ctx (SetMessage _) => true
  | _ => false
  end.

Definition response_actions (t : list Event) : list Event :=
  filter is_response_action t.

Definition is_started (name : string) (e : Event) : bool :=
  match e with
  | Started n => (n =? name)%string
  | _ => false
  end.

Definition is_finished (name : string) (e : Event) : bool :=
  match e with
  | Finished n => (n =? name)%string
  | _ => false
  end.

Definition is_timer_event (e : Event) : bool :=
  match e with
  | Started _ | Finished _ => true
  | _ => false
  end.

Definition count (p : Event -> bool) (t : list Event) : nat :=
  length (filter p t).

(** What a handler program does, read off the program: the targets it
    redirects to, in order, and how it ends. *)
Fixpoint handler_redirects (p : HandlerProgram) : list JSValue :=
  match p with
  | HReturn _ | HThrow _ => []
  | HRedirect to k => to :: handler_redirects k
  end.

Fixpoint handler_result (p : HandlerProgram) : Outcome JSValue :=
  match p with
  | HReturn v => Resolved v
  | HThrow e => Rejected e
  | HRedirect _ k => handler_result k
  end.

(** The error the outer [catch] block is entered with, if it is. *)
Definition caught {A} (m : M A) : option JSError :=
  match completion m with
  | Throw e => Some e
  | _ => None
  end.

Definition redirect_events (tos : list JSValue) : list Event :=
  map (fun to => Ctx (Redirect to)) tos.

(** The events the error-handling middleware emits before and after the
    rest of the chain. *)
Definition opening (ctx : Request) : list Event :=
  let url := replace_trailing_question_mark (originalUrl ctx) in
  [Increment "request.count";
   Increment ("request.url.count." ++ url)%string;
   Started "request";
   Started ("request.url.time." ++ url)%string].

Definition closing (ctx : Request) : list Event :=
  let url := replace_trailing_question_mark (originalUrl ctx) in
  [Finished "request"; Finished ("request.url.time." ++ url)%string].

Definition exactly_one_response (t : list Event) : Prop :=
  length (response_actions t) = 1.

(** The outer [catch] block starts by incrementing this counter, which
    neither the rendering middleware nor an error handler increments. *)
Definition boundary_reached (t : list Event) : Prop :=
  In (Increment "requests.errors") t.

(** The status the specification gives to the diagnostic page: the
    renderer's, else the error's own, else 500. *)
Definition spec_diagnostic_status (st : StackTrace) (error : JSError)
  : JSValue :=
  if truthy (response_status st) then response_status st
  else if typeof_number (error_status error) then error_status error
  else JNum 500.

(** The status of line 107: the [status] of the error when it is a
    number, 500 otherwise. *)
Definition error_response_status (error : JSError) : JSValue :=
  if typeof_number (error_status error) then error_status error
  else JNum 500.

(** The message of line 108. *)
Definition error_response_message (error : JSError) : JSValue :=
  js_or (error_message error) (JStr "Internal error").

(** The names of the counters a trace increments, in order. *)
Definition increments (t : list Event) : list string :=
  flat_map (fun e => match e with Increment name => [name] | _ => [] end) t.

(** The errors a trace hands to [options.log.error], in order. *)
Definition logged_errors (t : list Event) : list JSError :=
  flat_map (fun e => match e with LogError error => [error] | _ => [] end) t.

(** The line the outer [catch] block prints before the generic response. *)
Definition server_error_line : Event :=
  ConsoleLog
    (LogValue
       (JStr "[react-isomorphic-render] Webpage rendering server error")).

(** The calls to [render], to the error handler and to
    [render_stack_trace] in a trace, in order. *)
Definition is_call (e : Event) : bool :=
  match e with
  | CallRender _ | CallErrorHandler _ _ | CallRenderStackTrace _ _ => true
  | _ => false
  end.

Definition calls (t : list Event) : list Event := filter is_call t.

(** A status assignment is sound when the value is truthy or a number;
    other events pass. *)
Definition sound_status (e : Event) : bool :=
  match e with
  | Ctx (SetStatus v) => truthy v || typeof_number v
  | _ => true
  end.

(** The calls to [render_stack_trace] and the lines printed to the
    console. *)
Definition is_diagnostic_noise (e : Event) : bool :=
  match e with
  | CallRenderStackTrace _ _ | ConsoleLog _ => true
  | _ => false
  end.

(** The [Location] a sequence of redirects leaves: the last one. *)
Definition last_redirect (tos : list JSValue) (before : option JSValue)
  : option JSValue :=
  fold_left (fun _ to => Some to) tos before.

(** A custom middleware that has no hold on the timers of the
    error-handling middleware: it starts and stops none, whatever it does
    with the rest of the chain. *)
Definition keeps_timers (mw : Middleware) : Prop :=
  forall ctx next,
    count is_timer_event (trace next) = 0 ->
    count is_timer_event (trace (mw ctx next)) = 0.

(** ** Sample requests *)

(** The setter of Koa 2: an integer from 100 to 999. *)
Definition koa2 : Koa :=
  mkKoa
    (fun v =>
       match v with
       | JNum n => (100 <=? n)%Z && (n <=? 999)%Z
       | _ => false
       end)
    (fun v =>
       match v with
       | JNum _ =>
           mkError JUndefined (JStr "invalid status code")
             (JStr "AssertionError: invalid status code")
       | _ =>
           mkError JUndefined (JStr "status code must be a number")
             (JStr "AssertionError: status code must be a number")
       end).

(** The rejection of the third scenario of the specification. *)
Definition forbidden : JSError :=
  mkError (JNum 403) (JStr "Forbidden") (JStr "Error: Forbidden").

Definition no_options : Options := mkOptions None None false JUndefined.

(** [catch: (error) => console.error(error)], which writes no response. *)
Definition logging_handler : ErrorHandler := fun _ _ => HReturn JUndefined.

(** [catch: (error) => { throw error }] *)
Definition rethrowing_handler : ErrorHandler := fun error _ => HThrow error.

(** [catch: (error, { redirect }) => { redirect('/error'); throw error }] *)
Definition redirecting_then_throwing_handler : ErrorHandler :=
  fun error _ => HRedirect (JStr "/error") (HThrow error).

Definition with_handler (handler : ErrorHandler) : Options :=
  mkOptions (Some handler) None true JUndefined.

Definition render_forbidden : Request -> Outcome RenderResult :=
  fun _ => Rejected forbidden.

Definition render_users : Request -> Outcome RenderResult :=
  fun _ => Resolved (mkResult (JNum 200) (JStr "<html>Users</html>") JUndefined).

Definition render_moved : Request -> Outcome RenderResult :=
  fun _ => Resolved (mkResult JUndefined JUndefined (JStr "/new-page")).

(** A stack trace renderer that returns a page and no status. *)
Definition stack_trace_page : StackTrace :=
  mkStackTrace JUndefined (JStr "<html>Error: Forbidden</html>").

Definition renders_page : JSError -> JSValue -> Outcome StackTrace :=
  fun _ _ => Resolved stack_trace_page.

Definition renderer_error : JSError :=
  mkError JUndefined (JStr "Cannot read property") (JStr "TypeError").

Definition renderer_throws : JSError -> JSValue -> Outcome StackTrace :=
  fun _ _ => Rejected renderer_error.

(** A stack trace renderer that returns a status and no page. *)
Definition renders_nothing : JSError -> JSValue -> Outcome StackTrace :=
  fun _ _ => Resolved (mkStackTrace (JNum 404) JUndefined).

(** [catch: (error, { redirect }) => redirect('/error?code=500')], the
    handler of the fifth scenario of the specification. *)
Definition redirecting_handler : ErrorHandler :=
  fun _ _ => HRedirect (JStr "/error?code=500") (HReturn JUndefined).

(** An error with a status that is a number and no HTTP status. *)
Definition connection_lost : JSError :=
  mkError (JNum 0) (JStr "Connection lost") (JStr "Error: Connection lost").

Definition render_connection_lost : Request -> Outcome RenderResult :=
  fun _ => Rejected connection_lost.

(** A result whose status is the string '200'. *)
Definition render_string_status : Request -> Outcome RenderResult :=
  fun _ => Resolved (mkResult (JStr "200") (JStr "<html>Users</html>") JUndefined).

(** A custom middleware that answers itself when the rest of the chain
    throws: [async (ctx, next) => { try { await next() } catch (error)
    { ctx.body = 'oops' } }]. *)
Definition swallowing_middleware : Middleware :=
  fun _ next =>
    call (try_catch (invoke next ;; ret tt)
            (fun _ => emit (Ctx (SetBody (JStr "oops"))))).

Definition with_swallowing_middleware : Options :=
  mkOptions None (Some [swallowing_middleware]) false JUndefined.

(** ** The server *)

Section Server.

Variable koa : Koa.
Variable NODE_ENV : option string.
Variable options : Options.
Variable render : Request -> Outcome RenderResult.
Variable render_stack_trace : JSError -> JSValue -> Outcome StackTrace.

Definition error_handler : option ErrorHandler := catch options.

(** Lines 77 to 97 of the [catch] block of the error-handling
    middleware: the error page of development mode. *)
Definition diagnostic_block (error : JSError) : M unit :=
  if development NODE_ENV then
    try_catch
      (emit (CallRenderStackTrace error (print_error options)) ;;
       r <- await (render_stack_trace error (print_error options)) ;;
       if truthy (response_body r) then
         set_status koa (js_or (response_status r) (JNum 500)) ;;
         emit (Ctx (SetBody (response_body r))) ;;
         emit (Ctx (SetType "html")) ;;
         return_ JUndefined
       else ret tt)
      (fun error' =>
         emit (ConsoleLog
                 (LogValue (JStr "(couldn't render error stack trace)"))) ;;
         emit (ConsoleLog
                 (if truthy (error_stack error')
                  then LogValue (error_stack error')
                  else LogObject error')))
  else ret tt.

(** Lines 99 to 108: the error is logged and the response is derived
    from it. *)
Definition generic_block (error : JSError) : M unit :=
  emit (ConsoleLog
          (LogValue
             (JStr "[react-isomorphic-render] Webpage rendering server error"))) ;;
  (if log options then emit (LogError error) else ret tt) ;;
  set_status koa (if typeof_number (error_status error)
                  then error_status error
                  else JNum 500) ;;
  emit (Ctx (SetMessage (js_or (error_message error) (JStr "Internal error")))).

(** The [catch] block of the error-handling middleware. *)
Definition outer_catch (error : JSError) : M unit :=
  increment "requests.errors" ;;
  diagnostic_block error ;;
  generic_block error.

(** The first middleware: "Handles errors". *)
Definition error_middleware (ctx : Request) (next : M JSValue) : M JSValue :=
  call
    (let url := replace_trailing_question_mark (originalUrl ctx) in
     increment "request.count" ;;
     increment ("request.url.count." ++ url)%string ;;
     finished <- started "request" ;;
     finished_url <- started ("request.url.time." ++ url)%string ;;
     try_finally
       (try_catch (invoke next ;; ret tt) outer_catch)
       (finished ;; finished_url)).

(** The last middleware: "Isomorphic rendering". *)
Definition rendering_middleware (ctx : Request) : M JSValue :=
  call
    (let url := replace_trailing_question_mark (originalUrl ctx) in
     increment ("request.url.hits." ++ url)%string ;;
     let redirect_to := fun to => call (emit (Ctx (Redirect to))) in
     try_catch
       (emit (CallRender ctx) ;;
        r <- await (render ctx) ;;
        (if truthy (redirect r)
         then v <- redirect_to (redirect r) ;; return_ v
         else ret tt) ;;
        (if truthy (status r)
         then set_status koa (status r)
         else ret tt) ;;
        emit (Ctx (SetBody (content r))))
       (fun error =>
          increment "requests.errors.handled" ;;
          match error_handler with
          | Some handler =>
              emit (CallErrorHandler error url) ;;
              v <- run_handler redirect_to (handler error url) ;;
              return_ v
          | None => ret tt
          end ;;
          throw error)).

(** [options.middleware], when there is one. *)
Definition custom_middleware : list Middleware :=
  match middleware options with
  | Some l => l
  | None => []
  end.

(** Koa runs the middleware in the order of [web.use], each one with the
    rest of the chain as its [next]. *)
Fixpoint compose (ctx : Request) (mws : list Middleware) (last : M JSValue)
  : M JSValue :=
  match mws with
  | [] => last
  | mw :: rest => invoke (mw ctx (compose ctx rest last))
  end.

(** What the rest of the chain does below the error-handling middleware. *)
Definition downstream (ctx : Request) : M JSValue :=
  compose ctx custom_middleware (rendering_middleware ctx).

(** The handling of one request by the application that
    [start_webpage_rendering_server] returns. *)
Definition start_webpage_rendering_server (ctx : Request) : M JSValue :=
  error_middleware ctx (downstream ctx).

(** The trace of the outer [catch] block, when the rest of the chain
    throws. *)
Definition boundary (next : M JSValue) : list Event :=
  match caught next with
  | Some error => trace (outer_catch error)
  | None => []
  end.

(** Lines 100 to 105: the error is logged. *)
Definition error_logging (error : JSError) : list Event :=
  [ConsoleLog
     (LogValue
        (JStr "[react-isomorphic-render] Webpage rendering server error"))]
    ++ (if log options then [LogError error] else []).

(** Lines 99 to 108, when the status is accepted: the error is logged
    and the generic response is derived from it. *)
Definition generic_response (error : JSError) : list Event :=
  [ConsoleLog
     (LogValue
        (JStr "[react-isomorphic-render] Webpage rendering server error"))]
    ++ (if log options then [LogError error] else [])
    ++ [Ctx (SetStatus (if typeof_number (error_status error)
                        then error_status error
                        else JNum 500));
        Ctx (SetMessage (js_or (error_message error) (JStr "Internal error")))].

(** The second half of C2 as the specification states it: once an error
    handler is configured, a rejection of [render] never reaches the
    outer catch block. *)
Definition handler_keeps_boundary_out (ctx : Request) : Prop :=
  forall e handler,
    render ctx = Rejected e ->
    error_handler = Some handler ->
    ~ boundary_reached (trace (start_webpage_rendering_server ctx)).

(** The condition of lines 77 to 90: in development mode,
    [render_stack_trace] returns, its [response_body] is truthy and the
    status of line 85 is accepted, so that the diagnostic page is the
    response. *)
Definition serves_diagnostic_page (error : JSError) : bool :=
  development NODE_ENV
  && match render_stack_trace error (print_error options) with
     | Resolved st =>
         truthy (response_body st)
         && status_accepted koa (js_or (response_status st) (JNum 500))
     | Rejected _ => false
     end.

(** The outer [catch] block writes a response: the diagnostic page, or
    the generic response when the status of line 107 is accepted. *)
Definition boundary_answers (error : JSError) : bool :=
  serves_diagnostic_page error
  || status_accepted koa (error_response_status error).

(** The error the [catch] block of the rendering middleware is entered
    with, if it is: the one [render] rejects with, or the one the setter
    of the status throws at line 167. *)
Definition rendering_error (ctx : Request) : option JSError :=
  match render ctx with
  | Rejected e => Some e
  | Resolved r =>
      if truthy (redirect r) then None
      else if truthy (status r) && negb (status_accepted koa (status r))
           then Some (status_error koa (status r))
           else None
  end.

(** How the error-handling middleware completes: normally, unless the
    outer [catch] block throws. *)
Definition escaping (next : M JSValue) : Completion JSValue :=
  match caught next with
  | Some error => completion (call (outer_catch error))
  | None => Normal JUndefined
  end.

Abbreviation server := start_webpage_rendering_server.

(** * Properties *)

(** ** Traces *)

Lemma count_app (p : Event -> bool) (t u : list Event) :
  count p (t ++ u) = count p t + count p u.
Proof.
  unfold count. now rewrite filter_app, length_app.
Qed.

Lemma response_actions_app (t u : list Event) :
  response_actions (t ++ u) = response_actions t ++ response_actions u.
Proof.
  apply filter_app.
Qed.

Lemma response_after_app (r : Response) (t u : list Event) :
  response_after r (t ++ u) = response_after (response_after r t) u.
Proof.
  apply fold_left_app.
Qed.

Lemma no_timer_no_started (name : string) (t : list Event) :
  count is_timer_event t = 0 -> count (is_started name) t = 0.
Proof.
  unfold count. induction t as [|e t IH]; simpl; [reflexivity|].
  destruct e; simpl; auto; discriminate.
Qed.

Lemma no_timer_no_finished (name : string) (t : list Event) :
  count is_timer_event t = 0 -> count (is_finished name) t = 0.
Proof.
  unfold count. induction t as [|e t IH]; simpl; [reflexivity|].
  destruct e; simpl; auto; discriminate.
Qed.

Lemma run_handler_eq (p : HandlerProgram) :
  run_handler (fun to => call (emit (Ctx (Redirect to)))) p =
  (redirect_events (handler_redirects p),
   match handler_result p with
   | Resolved v => Normal v
   | Rejected e => Throw e
   end).
Proof.
  induction p as [v|e|to k IH]; try reflexivity.
  cbn [run_handler]. rewrite IH. reflexivity.
Qed.

(** ** Events that assign nothing *)

Lemma noise_response (r : Response) (t : list Event) :
  forallb is_diagnostic_noise t = true -> response_after r t = r.
Proof.
  revert r. induction t as [|e t IH]; intros r H; [reflexivity|].
  simpl in H. apply andb_true_iff in H. destruct H as [He Ht].
  destruct e; try discriminate He; apply IH; exact Ht.
Qed.

Lemma noise_observations (t : list Event) :
  forallb is_diagnostic_noise t = true ->
  response_actions t = []
  /\ logged_errors t = []
  /\ increments t = []
  /\ count is_timer_event t = 0
  /\ forallb sound_status t = true.
Proof.
  induction t as [|e t IH]; intros H; [now repeat split|].
  simpl in H. apply andb_true_iff in H. destruct H as [He Ht].
  destruct (IH Ht) as (H1 & H2 & H3 & H4 & H5).
  destruct e; try discriminate He; now repeat split.
Qed.

(** ** The outer catch block, block by block *)

Lemma generic_block_eq (error : JSError) :
  generic_block error =
  if status_accepted koa (error_response_status error)
  then (generic_response error, Normal tt)
  else (error_logging error,
        Throw (status_error koa (error_response_status error))).
Proof.
  unfold generic_block, generic_response, error_logging, set_status,
    error_response_status.
  destruct (status_accepted koa _); destruct (log options); reflexivity.
Qed.

Lemma diagnostic_off (error : JSError) :
  development NODE_ENV = false ->
  diagnostic_block error = ([], Normal tt).
Proof.
  intros Hd. unfold diagnostic_block. rewrite Hd. reflexivity.
Qed.

Lemma diagnostic_page (error : JSError) (st : StackTrace) :
  development NODE_ENV = true ->
  render_stack_trace error (print_error options) = Resolved st ->
  truthy (response_body st) = true ->
  status_accepted koa (js_or (response_status st) (JNum 500)) = true ->
  diagnostic_block error =
  ([CallRenderStackTrace error (print_error options);
    Ctx (SetStatus (js_or (response_status st) (JNum 500)));
    Ctx (SetBody (response_body st));
    Ctx (SetType "html")],
   Return JUndefined).
Proof.
  intros Hd Hr Hb Ha. unfold diagnostic_block, set_status.
  rewrite Hd, Hr. simpl. rewrite Hb, Ha. reflexivity.
Qed.

Lemma diagnostic_status_rejected (error : JSError) (st : StackTrace) :
  development NODE_ENV = true ->
  render_stack_trace error (print_error options) = Resolved st ->
  truthy (response_body st) = true ->
  status_accepted koa (js_or (response_status st) (JNum 500)) = false ->
  let error' := status_error koa (js_or (response_status st) (JNum 500)) in
  diagnostic_block error =
  ([CallRenderStackTrace error (print_error options);
    ConsoleLog (LogValue (JStr "(couldn't render error stack trace)"));
    ConsoleLog (if truthy (error_stack error')
                then LogValue (error_stack error')
                else LogObject error')],
   Normal tt).
Proof.
  intros Hd Hr Hb Ha error'. unfold diagnostic_block, set_status.
  rewrite Hd, Hr. simpl. rewrite Hb, Ha. reflexivity.
Qed.

Lemma diagnostic_no_body (error : JSError) (st : StackTrace) :
  development NODE_ENV = true ->
  render_stack_trace error (print_error options) = Resolved st ->
  truthy (response_body st) = false ->
  diagnostic_block error =
  ([CallRenderStackTrace error (print_error options)], Normal tt).
Proof.
  intros Hd Hr Hb. unfold diagnostic_block.
  rewrite Hd, Hr. simpl. rewrite Hb. reflexivity.
Qed.

Lemma diagnostic_throws (error error' : JSError) :
  development NODE_ENV = true ->
  render_stack_trace error (print_error options) = Rejected error' ->
  diagnostic_block error =
  ([CallRenderStackTrace error (print_error options);
    ConsoleLog (LogValue (JStr "(couldn't render error stack trace)"));
    ConsoleLog (if truthy (error_stack error')
                then LogValue (error_stack error')
                else LogObject error')],
   Normal tt).
Proof.
  intros Hd Hr. unfold diagnostic_block. rewrite Hd, Hr. reflexivity.
Qed.

(** The outer catch block after a diagnostic block that did not return:
    the generic block decides the completion. *)
Lemma outer_catch_through (error : JSError) (before : list Event) :
  diagnostic_block error = (before, Normal tt) ->
  outer_catch error =
  ([Increment "requests.errors"] ++ before ++ trace (generic_block error),
   completion (generic_block error)).
Proof.
  intros Hb. unfold outer_catch. rewrite Hb.
  destruct (generic_block error) as [t c]. reflexivity.
Qed.

Lemma outer_catch_page (error : JSError) (st : StackTrace) :
  development NODE_ENV = true ->
  render_stack_trace error (print_error options) = Resolved st ->
  truthy (response_body st) = true ->
  status_accepted koa (js_or (response_status st) (JNum 500)) = true ->
  outer_catch error =
  ([Increment "requests.errors";
    CallRenderStackTrace error (print_error options);
    Ctx (SetStatus (js_or (response_status st) (JNum 500)));
    Ctx (SetBody (response_body st));
    Ctx (SetType "html")],
   Return JUndefined).
Proof.
  intros Hd Hr Hb Ha. unfold outer_catch.
  rewrite (diagnostic_page error st Hd Hr Hb Ha). reflexivity.
Qed.

(** The two ways through the outer catch block: the page is served and
    the block returns, or the diagnostic block assigns nothing and the
    generic block follows. *)
Lemma outer_catch_cases (error : JSError) :
  (serves_diagnostic_page error = true
   /\ exists st,
       render_stack_trace error (print_error options) = Resolved st
       /\ development NODE_ENV = true
       /\ truthy (response_body st) = true
       /\ status_accepted koa (js_or (response_status st) (JNum 500)) = true
       /\ outer_catch error =
          ([Increment "requests.errors";
            CallRenderStackTrace error (print_error options);
            Ctx (SetStatus (js_or (response_status st) (JNum 500)));
            Ctx (SetBody (response_body st));
            Ctx (SetType "html")],
           Return JUndefined))
  \/ (serves_diagnostic_page error = false
      /\ exists before,
          diagnostic_block error = (before, Normal tt)
          /\ forallb is_diagnostic_noise before = true
          /\ calls before
             = (if development NODE_ENV
                then [CallRenderStackTrace error (print_error options)]
                else [])
          /\ outer_catch error =
             ([Increment "requests.errors"] ++ before
                ++ trace (generic_block error),
              completion (generic_block error))).
Proof.
  unfold serves_diagnostic_page.
  destruct (development NODE_ENV) eqn:Hd; cbn [andb].
  - destruct (render_stack_trace error (print_error options))
      as [st|e'] eqn:Hr.
    + destruct (truthy (response_body st)) eqn:Hb; cbn [andb].
      * destruct (status_accepted koa
                    (js_or (response_status st) (JNum 500))) eqn:Ha.
        -- left. split; [reflexivity|]. exists st.
           repeat (split; [assumption || reflexivity|]).
           exact (outer_catch_page error st Hd Hr Hb Ha).
        -- right. split; [reflexivity|].
           pose proof (diagnostic_status_rejected error st Hd Hr Hb Ha)
             as H. cbv zeta in H.
           eexists. split; [exact H|].
           split; [reflexivity|]. split; [reflexivity|].
           exact (outer_catch_through error _ H).
      * right. split; [reflexivity|].
        pose proof (diagnostic_no_body error st Hd Hr Hb) as H.
        eexists. split; [exact H|].
        split; [reflexivity|]. split; [reflexivity|].
        exact (outer_catch_through error _ H).
    + right. split; [reflexivity|].
      pose proof (diagnostic_throws error e' Hd Hr) as H.
      eexists. split; [exact H|].
      split; [reflexivity|]. split; [reflexivity|].
      exact (outer_catch_through error _ H).
  - right. split; [reflexivity|].
    pose proof (diagnostic_off error Hd) as H.
    eexists. split; [exact H|].
    split; [reflexivity|]. split; [reflexivity|].
    exact (outer_catch_through error _ H).
Qed.

(** ** The error-handling middleware *)

(** Whatever the rest of the chain does, the trace of the
    error-handling middleware is the opening, the trace of the rest of
    the chain, the outer [catch] block if the chain threw, and the
    closing; it throws only what the outer [catch] block throws. *)
Lemma error_middleware_eq (ctx : Request) (next : M JSValue) :
  error_middleware ctx next =
  (opening ctx ++ trace next ++ boundary next ++ closing ctx,
   escaping next).
Proof.
  unfold error_middleware, escaping, boundary, caught, opening, closing.
  destruct next as [t [v|v|e]]; simpl.
  - rewrite !app_nil_r. reflexivity.
  - rewrite !app_nil_r. reflexivity.
  - destruct (outer_catch e) as [t' [u|u|e']]; simpl;
      rewrite <- !app_assoc; reflexivity.
Qed.

Lemma server_trace (ctx : Request) :
  trace (server ctx) =
  opening ctx ++ trace (downstream ctx) ++ boundary (downstream ctx)
    ++ closing ctx.
Proof.
  unfold start_webpage_rendering_server.
  rewrite error_middleware_eq. reflexivity.
Qed.

Lemma server_completion (ctx : Request) :
  completion (server ctx) = escaping (downstream ctx).
Proof.
  unfold start_webpage_rendering_server.
  rewrite error_middleware_eq. reflexivity.
Qed.

(** ** The rendering middleware, path by path *)

Lemma rendering_redirect (ctx : Request) (r : RenderResult) :
  render ctx = Resolved r ->
  truthy (redirect r) = true ->
  rendering_middleware ctx =
  ([Increment ("request.url.hits."
               ++ replace_trailing_question_mark (originalUrl ctx))%string;
    CallRender ctx;
    Ctx (Redirect (redirect r))],
   Normal JUndefined).
Proof.
  intros Hr Ht. unfold rendering_middleware.
  rewrite Hr. simpl. rewrite Ht. reflexivity.
Qed.

Lemma rendering_content (ctx : Request) (r : RenderResult) :
  render ctx = Resolved r ->
  truthy (redirect r) = false ->
  truthy (status r) && negb (status_accepted koa (status r)) = false ->
  rendering_middleware ctx =
  ([Increment ("request.url.hits."
               ++ replace_trailing_question_mark (originalUrl ctx))%string;
    CallRender ctx]
     ++ (if truthy (status r) then [Ctx (SetStatus (status r))] else [])
     ++ [Ctx (SetBody (content r))],
   Normal JUndefined).
Proof.
  intros Hr Ht Hs. unfold rendering_middleware, set_status.
  rewrite Hr. simpl. rewrite Ht. simpl.
  destruct (truthy (status r)); [|reflexivity].
  destruct (status_accepted koa (status r)); [reflexivity|discriminate Hs].
Qed.

Lemma rendering_error_rejected (ctx : Request) (e : JSError) :
  render ctx = Rejected e -> rendering_error ctx = Some e.
Proof.
  intros Hr. unfold rendering_error. rewrite Hr. reflexivity.
Qed.

Lemma rendering_failed_no_handler (ctx : Request) (e : JSError) :
  rendering_error ctx = Some e ->
  error_handler = None ->
  rendering_middleware ctx =
  ([Increment ("request.url.hits."
               ++ replace_trailing_question_mark (originalUrl ctx))%string;
    CallRender ctx;
    Increment "requests.errors.handled"],
   Throw e).
Proof.
  unfold rendering_error, rendering_middleware, set_status.
  intros He Hh. rewrite Hh.
  destruct (render ctx) as [r|e0].
  - simpl. destruct (truthy (redirect r)); [discriminate He|].
    destruct (truthy (status r)); [|discriminate He].
    destruct (status_accepted koa (status r)); [discriminate He|].
    injection He as <-. reflexivity.
  - injection He as <-. reflexivity.
Qed.

Lemma rendering_failed_handler
      (ctx : Request) (e : JSError) (handler : ErrorHandler) :
  rendering_error ctx = Some e ->
  error_handler = Some handler ->
  let url := replace_trailing_question_mark (originalUrl ctx) in
  rendering_middleware ctx =
  ([Increment ("request.url.hits." ++ url)%string;
    CallRender ctx;
    Increment "requests.errors.handled";
    CallErrorHandler e url]
     ++ redirect_events (handler_redirects (handler e url)),
   match handler_result (handler e url) with
   | Resolved v => Normal v
   | Rejected e' => Throw e'
   end).
Proof.
  intros He Hh url. subst url.
  unfold rendering_error in He. unfold rendering_middleware, set_status.
  rewrite Hh.
  set (url := replace_trailing_question_mark (originalUrl ctx)).
  destruct (render ctx) as [r|e0].
  - simpl. destruct (truthy (redirect r)); [discriminate He|].
    destruct (truthy (status r)); [|discriminate He].
    destruct (status_accepted koa (status r)); [discriminate He|].
    injection He as <-. simpl. rewrite run_handler_eq.
    destruct (handler_result (handler _ url)); simpl;
      rewrite ?app_nil_r; reflexivity.
  - injection He as <-. simpl. rewrite run_handler_eq.
    destruct (handler_result (handler e0 url)); simpl;
      rewrite ?app_nil_r; reflexivity.
Qed.

(** The three ways through the rendering middleware. *)
Lemma rendering_cases (ctx : Request) :
  (exists r,
      render ctx = Resolved r
      /\ truthy (redirect r) = true
      /\ rendering_error ctx = None)
  \/ (exists r,
         render ctx = Resolved r
         /\ truthy (redirect r) = false
         /\ truthy (status r) && negb (status_accepted koa (status r))
            = false
         /\ rendering_error ctx = None)
  \/ (exists e, rendering_error ctx = Some e).
Proof.
  unfold rendering_error.
  destruct (render ctx) as [r|e].
  - destruct (truthy (redirect r)) eqn:Ht.
    + left. exists r. now repeat split.
    + destruct (truthy (status r) && negb (status_accepted koa (status r)))
        eqn:Hs.
      * right. right. eexists. reflexivity.
      * right. left. exists r. now repeat split.
  - right. right. exists e. reflexivity.
Qed.

Ltac rendering_paths ctx :=
  let r := fresh "r" in
  let e := fresh "e" in
  let handler := fresh "handler" in
  let Hr := fresh "Hr" in
  let Ht := fresh "Ht" in
  let Hs := fresh "Hs" in
  let He := fresh "He" in
  let Hh := fresh "Hh" in
  destruct (rendering_cases ctx)
    as [[r [Hr [Ht He]]] | [[r [Hr [Ht [Hs He]]]] | [e He]]];
  [ rewrite ?(rendering_redirect ctx r Hr Ht) in *
  | rewrite ?(rendering_content ctx r Hr Ht Hs) in *
  | destruct error_handler as [handler|] eqn:Hh;
    [ rewrite ?(rendering_failed_handler ctx e handler He Hh) in *
    | rewrite ?(rendering_failed_no_handler ctx e He Hh) in * ] ].

(** Without [options.middleware] the rest of the chain is the rendering
    middleware. *)
Lemma downstream_no_custom (ctx : Request) :
  custom_middleware = [] ->
  downstream ctx = rendering_middleware ctx.
Proof.
  intros H. unfold downstream. rewrite H. reflexivity.
Qed.

(** ** What the outer catch block leaves *)

Lemma generic_response_one_action (error : JSError) :
  length (response_actions (generic_response error)) = 1.
Proof.
  unfold generic_response. destruct (log options); reflexivity.
Qed.

Lemma error_logging_no_action (error : JSError) :
  response_actions (error_logging error) = [].
Proof.
  unfold error_logging. destruct (log options); reflexivity.
Qed.

(** The outer [catch] block writes one response, or none when the
    status of line 107 is not accepted. *)
Lemma outer_catch_actions (error : JSError) :
  length (response_actions (trace (outer_catch error)))
  = if boundary_answers error then 1 else 0.
Proof.
  unfold boundary_answers.
  destruct (outer_catch_cases error)
    as [[Hp [st (_ & _ & _ & _ & Ho)]] | [Hp [before (_ & Hn & _ & Ho)]]];
    rewrite Hp, Ho; cbn [trace fst orb]; [reflexivity|].
  destruct (noise_observations before Hn) as (Ha & _).
  rewrite !response_actions_app, Ha, generic_block_eq.
  destruct (status_accepted koa (error_response_status error));
    cbn [trace fst app].
  - apply generic_response_one_action.
  - rewrite error_logging_no_action. reflexivity.
Qed.

Lemma outer_catch_no_timer (error : JSError) :
  count is_timer_event (trace (outer_catch error)) = 0.
Proof.
  destruct (outer_catch_cases error)
    as [[_ [st (_ & _ & _ & _ & Ho)]] | [_ [before (_ & Hn & _ & Ho)]]];
    rewrite Ho; cbn [trace fst]; [reflexivity|].
  destruct (noise_observations before Hn) as (_ & _ & _ & Ht & _).
  rewrite !count_app, Ht, generic_block_eq.
  unfold generic_response, error_logging.
  destruct (status_accepted koa (error_response_status error));
    destruct (log options); reflexivity.
Qed.

Lemma response_after_generic (r : Response) (error : JSError) :
  response_after r (generic_response error) =
  mkResponse
    (Some (if typeof_number (error_status error)
           then error_status error
           else JNum 500))
    (res_body r) (res_type r)
    (Some (js_or (error_message error) (JStr "Internal error")))
    (res_location r).
Proof.
  unfold generic_response. destruct (log options); reflexivity.
Qed.

Lemma response_after_logging (r : Response) (error : JSError) :
  response_after r (error_logging error) = r.
Proof.
  unfold error_logging. destruct (log options); reflexivity.
Qed.

(** What the generic block leaves of a response: the status and the
    message of the error, or the response as it was when the status is
    not accepted. *)
Lemma response_after_generic_block (r : Response) (error : JSError) :
  response_after r (trace (generic_block error)) =
  if status_accepted koa (error_response_status error)
  then mkResponse
         (Some (error_response_status error)) (res_body r) (res_type r)
         (Some (error_response_message error)) (res_location r)
  else r.
Proof.
  rewrite generic_block_eq.
  destruct (status_accepted koa (error_response_status error));
    cbn [trace fst].
  - apply response_after_generic.
  - apply response_after_logging.
Qed.

Lemma response_actions_redirects (tos : list JSValue) :
  response_actions (redirect_events tos) = redirect_events tos.
Proof.
  induction tos as [|to tos IH]; [reflexivity|].
  change (Ctx (Redirect to) :: response_actions (redirect_events tos)
          = Ctx (Redirect to) :: redirect_events tos).
  now rewrite IH.
Qed.

Lemma redirect_events_length (tos : list JSValue) :
  length (redirect_events tos) = length tos.
Proof.
  apply length_map.
Qed.

Lemma opening_no_action (ctx : Request) :
  response_actions (opening ctx) = [].
Proof. reflexivity. Qed.

Lemma closing_no_action (ctx : Request) :
  response_actions (closing ctx) = [].
Proof. reflexivity. Qed.

(** ** The response-producing actions of a request *)

(** C1, as amended.  On a server without custom middleware: when the
    rendering middleware completes without entering its [catch] block
    ([render] resolves to a redirect, or to a result whose status is
    absent or accepted by the setter), exactly one response-producing
    action occurs, the redirect or the body.  When it enters its [catch]
    block and no error handler is configured, the outer [catch] block
    writes one response, the diagnostic page or the generic error
    response, or none when the setter rejects the status of line 107.
    When an error handler is configured, the response-producing actions
    are the redirects the handler makes, however many, and what the
    outer [catch] block writes if the handler throws. *)
Theorem response_actions_of_request (ctx : Request) :
  custom_middleware = [] ->
  let url := replace_trailing_question_mark (originalUrl ctx) in
  let t := trace (server ctx) in
  match rendering_error ctx with
  | None => exactly_one_response t
  | Some e =>
      match error_handler with
      | None =>
          length (response_actions t)
          = if boundary_answers e then 1 else 0
      | Some handler =>
          length (response_actions t) =
          length (handler_redirects (handler e url))
          + match handler_result (handler e url) with
            | Resolved _ => 0
            | Rejected e' => if boundary_answers e' then 1 else 0
            end
      end
  end.
Proof.
  intros Hm url t. subst t. unfold exactly_one_response.
  rewrite server_trace.
  rewrite !response_actions_app, opening_no_action, closing_no_action.
  rewrite app_nil_r. cbn [app].
  unfold boundary, caught. rewrite (downstream_no_custom ctx Hm).
  rendering_paths ctx; rewrite He.
  - reflexivity.
  - destruct (truthy (status r)); reflexivity.
  - fold url. cbn [trace fst completion snd].
    rewrite response_actions_app, response_actions_redirects.
    cbn [response_actions filter is_response_action app].
    rewrite !length_app, redirect_events_length.
    destruct (handler_result (handler e url)) as [v|e'].
    + reflexivity.
    + rewrite outer_catch_actions. reflexivity.
  - cbn [trace fst completion snd].
    rewrite length_app, outer_catch_actions. reflexivity.
Qed.

(** ** A rejected render *)

Lemma redirect_events_not_boundary (tos : list JSValue) :
  ~ boundary_reached (redirect_events tos).
Proof.
  unfold boundary_reached, redirect_events. rewrite in_map_iff.
  intros [to [H _]]. discriminate H.
Qed.

Lemma not_boundary_app (t u : list Event) :
  ~ boundary_reached t -> ~ boundary_reached u -> ~ boundary_reached (t ++ u).
Proof.
  unfold boundary_reached. rewrite in_app_iff. tauto.
Qed.

(** C2, as amended.  When [render] rejects, the rendering middleware
    increments [requests.errors.handled] and then: without an error
    handler it throws the same error to its caller; with one, it calls
    the handler with the error, the normalized url and [redirect], and
    completes as the handler does.  On a server without custom
    middleware the outer [catch] block is therefore not entered when the
    handler returns, and is entered, with what the handler threw, when
    the handler throws, as it is entered with the error of [render] when
    there is no handler. *)
Theorem render_rejection (ctx : Request) (e : JSError) :
  render ctx = Rejected e ->
  let url := replace_trailing_question_mark (originalUrl ctx) in
  let rejected :=
    [Increment ("request.url.hits." ++ url)%string;
     CallRender ctx;
     Increment "requests.errors.handled"] in
  match error_handler with
  | None =>
      rendering_middleware ctx = (rejected, Throw e)
      /\ (custom_middleware = [] ->
          trace (server ctx) =
          opening ctx ++ rejected ++ trace (outer_catch e) ++ closing ctx)
  | Some handler =>
      trace (rendering_middleware ctx) =
      rejected ++ [CallErrorHandler e url]
        ++ redirect_events (handler_redirects (handler e url))
      /\ match handler_result (handler e url) with
         | Resolved v =>
             completion (rendering_middleware ctx) = Normal v
             /\ (custom_middleware = [] ->
                 ~ boundary_reached (trace (server ctx)))
         | Rejected e' =>
             completion (rendering_middleware ctx) = Throw e'
             /\ (custom_middleware = [] ->
                 trace (server ctx) =
                 opening ctx ++ trace (rendering_middleware ctx)
                   ++ trace (outer_catch e') ++ closing ctx)
         end
  end.
Proof.
  intros Hr url rejected.
  pose proof (rendering_error_rejected ctx e Hr) as He.
  destruct error_handler as [handler|] eqn:Hh.
  - pose proof (rendering_failed_handler ctx e handler He Hh) as Hm.
    cbv zeta in Hm. fold url in Hm.
    split; [rewrite Hm; reflexivity|].
    destruct (handler_result (handler e url)) as [v|e'].
    + split; [rewrite Hm; reflexivity|].
      intros Hc. rewrite server_trace, (downstream_no_custom ctx Hc), Hm.
      unfold boundary, caught. cbn [trace fst completion snd].
      repeat apply not_boundary_app;
        try apply redirect_events_not_boundary;
        unfold boundary_reached, opening, closing; simpl;
        intuition discriminate.
    + split; [rewrite Hm; reflexivity|].
      intros Hc. rewrite server_trace, (downstream_no_custom ctx Hc), Hm.
      reflexivity.
  - pose proof (rendering_failed_no_handler ctx e He Hh) as Hm.
    split; [exact Hm|].
    intros Hc. rewrite server_trace, (downstream_no_custom ctx Hc), Hm.
    reflexivity.
Qed.

(** ** Errors that reach the outer catch block *)

Lemma response_after_closing (r : Response) (ctx : Request) :
  response_after r (closing ctx) = r.
Proof. reflexivity. Qed.

Lemma response_of_opening (ctx : Request) :
  response_of (opening ctx) = untouched.
Proof. reflexivity. Qed.

(** The response once the request is handled, from the response the rest
    of the chain left. *)
Lemma response_of_server (ctx : Request) :
  response_of (trace (server ctx)) =
  response_after (response_of (trace (downstream ctx)))
    (boundary (downstream ctx)).
Proof.
  rewrite server_trace. unfold response_of.
  rewrite !response_after_app, response_after_closing.
  fold (response_of (opening ctx)). rewrite response_of_opening.
  reflexivity.
Qed.

Lemma response_after_redirects_body (r : Response) (tos : list JSValue) :
  res_body (response_after r (redirect_events tos)) = res_body r.
Proof.
  revert r. induction tos as [|to tos IH]; intros r; [reflexivity|].
  change (res_body (response_after (assign r (Redirect to))
                      (redirect_events tos)) = res_body r).
  now rewrite IH.
Qed.

(** A rendering middleware that throws has assigned no body. *)
Lemma thrown_without_body (ctx : Request) (error : JSError) :
  caught (rendering_middleware ctx) = Some error ->
  res_body (response_of (trace (rendering_middleware ctx))) = None.
Proof.
  unfold caught. intros Hc. rendering_paths ctx.
  - discriminate Hc.
  - discriminate Hc.
  - cbn [trace fst]. unfold response_of.
    rewrite response_after_app, response_after_redirects_body.
    reflexivity.
  - reflexivity.
Qed.

(** The outer [catch] block throws what the generic block throws, when
    the page is not served. *)
Lemma escaping_generic (next : M JSValue) (error : JSError) :
  caught next = Some error ->
  serves_diagnostic_page error = false ->
  escaping next =
  if status_accepted koa (error_response_status error)
  then Normal JUndefined
  else Throw (status_error koa (error_response_status error)).
Proof.
  intros Hc Hp. unfold escaping. rewrite Hc.
  destruct (outer_catch_cases error)
    as [[Hp' _] | [_ [before (_ & _ & _ & Ho)]]]; [congruence|].
  rewrite Ho, generic_block_eq.
  destruct (status_accepted koa (error_response_status error)); reflexivity.
Qed.

Lemma production_serves_no_page (error : JSError) :
  development NODE_ENV = false -> serves_diagnostic_page error = false.
Proof.
  intros Hd. unfold serves_diagnostic_page. rewrite Hd. reflexivity.
Qed.

(** C3, as amended.  In development mode, when an error reaches the outer
    catch block and [render_stack_trace] returns a body, the status of
    the page is the renderer's [response_status] when that is truthy and
    500 otherwise: the status of the error itself is not looked at.
    When the setter accepts that status, the response body is the body
    of the renderer, its type is html and its status is that status.
    When the setter rejects it, line 85 throws inside the inner [try]:
    what it threw is printed to the console, no page is served and the
    block goes on with the generic response. *)
Theorem diagnostic_response
        (ctx : Request) (error : JSError) (st : StackTrace) :
  development NODE_ENV = true ->
  caught (downstream ctx) = Some error ->
  render_stack_trace error (print_error options) = Resolved st ->
  truthy (response_body st) = true ->
  let response := response_of (trace (server ctx)) in
  let page_status := js_or (response_status st) (JNum 500) in
  if status_accepted koa page_status
  then boundary (downstream ctx) =
       [Increment "requests.errors";
        CallRenderStackTrace error (print_error options);
        Ctx (SetStatus page_status);
        Ctx (SetBody (response_body st));
        Ctx (SetType "html")]
       /\ res_body response = Some (response_body st)
       /\ res_type response = Some "html"
       /\ res_status response = Some page_status
  else boundary (downstream ctx) =
       [Increment "requests.errors";
        CallRenderStackTrace error (print_error options);
        ConsoleLog (LogValue (JStr "(couldn't render error stack trace)"));
        ConsoleLog (if truthy (error_stack (status_error koa page_status))
                    then LogValue (error_stack (status_error koa page_status))
                    else LogObject (status_error koa page_status))]
         ++ trace (generic_block error).
Proof.
  intros Hd Hc Hr Hb response page_status. subst response page_status.
  rewrite response_of_server. unfold boundary. rewrite Hc.
  destruct (status_accepted koa (js_or (response_status st) (JNum 500)))
    eqn:Ha.
  - rewrite (outer_catch_page error st Hd Hr Hb Ha). repeat split.
  - pose proof (diagnostic_status_rejected error st Hd Hr Hb Ha) as H.
    cbv zeta in H. rewrite (outer_catch_through error _ H). reflexivity.
Qed.

Lemma generic_block_no_renderer (error e : JSError) (v : JSValue) :
  ~ In (CallRenderStackTrace e v) (trace (generic_block error)).
Proof.
  rewrite generic_block_eq. unfold generic_response, error_logging.
  destruct (status_accepted koa (error_response_status error));
    destruct (log options); simpl; intuition discriminate.
Qed.

(** C4, as amended.  Outside development mode, when an error reaches the
    outer catch block, [render_stack_trace] is not called.  When the
    setter accepts the status of line 107, which is the [status] of the
    error when that is a number and 500 otherwise, the response status
    is that status and the response message ([ctx.message]) is the
    [message] of the error, or "Internal error" when that is falsy; no
    body is assigned, so that the body is as the rest of the chain left
    it, unassigned on a server without custom middleware.  When the
    setter rejects the status, line 107 throws after the error was
    logged: nothing is assigned and the error-handling middleware
    throws what the setter threw. *)
Theorem production_error_response (ctx : Request) (error : JSError) :
  development NODE_ENV = false ->
  caught (downstream ctx) = Some error ->
  let response := response_of (trace (server ctx)) in
  let below := response_of (trace (downstream ctx)) in
  (forall e v, ~ In (CallRenderStackTrace e v) (boundary (downstream ctx)))
  /\ if status_accepted koa (error_response_status error)
     then boundary (downstream ctx) =
          [Increment "requests.errors"] ++ generic_response error
          /\ res_status response =
             Some (if typeof_number (error_status error)
                   then error_status error
                   else JNum 500)
          /\ res_message response =
             Some (js_or (error_message error) (JStr "Internal error"))
          /\ res_body response = res_body below
          /\ (custom_middleware = [] -> res_body response = None)
          /\ completion (server ctx) = Normal JUndefined
     else boundary (downstream ctx) =
          [Increment "requests.errors"] ++ error_logging error
          /\ response = below
          /\ completion (server ctx) =
             Throw (status_error koa (error_response_status error)).
Proof.
  intros Hd Hc response below. subst response below.
  pose proof (production_serves_no_page error Hd) as Hp.
  pose proof (outer_catch_through error [] (diagnostic_off error Hd)) as Ho.
  rewrite response_of_server, server_completion, (escaping_generic _ _ Hc Hp).
  unfold boundary. rewrite Hc, Ho. cbn [trace fst app].
  split.
  - intros e v [H|H]; [discriminate H|].
    exact (generic_block_no_renderer _ _ _ H).
  - change (Increment "requests.errors" :: trace (generic_block error))
      with ([Increment "requests.errors"] ++ trace (generic_block error)).
    rewrite response_after_app.
    change (response_after ?r [Increment "requests.errors"]) with r.
    rewrite response_after_generic_block, generic_block_eq.
    destruct (status_accepted koa (error_response_status error));
      cbn [trace fst].
    + repeat split.
      intros Hm. cbn [res_body].
      rewrite (downstream_no_custom ctx Hm) in *.
      exact (thrown_without_body ctx error Hc).
    + repeat split.
Qed.

(** C8, as amended.  In development mode, when [render_stack_trace] throws on an
    error that reached the outer catch block, what it threw is printed
    to the console and dropped: the block goes on with lines 99 to 108
    on the original error, and how the error-handling middleware
    completes depends on the original error alone.  When the setter
    accepts the status of the original error, the generic response is
    derived from the original error and the middleware completes
    normally; when it does not, what escapes is the error of the
    setter, not the one of the renderer. *)
Theorem renderer_failure_contained
        (ctx : Request) (error error' : JSError) :
  development NODE_ENV = true ->
  caught (downstream ctx) = Some error ->
  render_stack_trace error (print_error options) = Rejected error' ->
  let response := response_of (trace (server ctx)) in
  let below := response_of (trace (downstream ctx)) in
  boundary (downstream ctx) =
  [Increment "requests.errors";
   CallRenderStackTrace error (print_error options);
   ConsoleLog (LogValue (JStr "(couldn't render error stack trace)"));
   ConsoleLog (if truthy (error_stack error')
               then LogValue (error_stack error')
               else LogObject error')]
    ++ trace (generic_block error)
  /\ if status_accepted koa (error_response_status error)
     then trace (generic_block error) = generic_response error
          /\ completion (server ctx) = Normal JUndefined
          /\ res_status response =
             Some (if typeof_number (error_status error)
                   then error_status error
                   else JNum 500)
          /\ res_message response =
             Some (js_or (error_message error) (JStr "Internal error"))
     else trace (generic_block error) = error_logging error
          /\ completion (server ctx) =
             Throw (status_error koa (error_response_status error))
          /\ response = below.
Proof.
  intros Hd Hc Hr response below. subst response below.
  assert (Hp : serves_diagnostic_page error = false)
    by (unfold serves_diagnostic_page; rewrite Hd, Hr; reflexivity).
  pose proof (outer_catch_through error _ (diagnostic_throws error error' Hd Hr))
    as Ho.
  rewrite response_of_server, server_completion, (escaping_generic _ _ Hc Hp).
  unfold boundary. rewrite Hc, Ho. cbn [trace fst].
  split; [reflexivity|].
  rewrite !response_after_app, response_after_generic_block, generic_block_eq.
  destruct (status_accepted koa (error_response_status error));
    cbn [trace fst]; repeat split.
Qed.

Lemma development_iff :
  development NODE_ENV = true <-> NODE_ENV <> Some "production".
Proof.
  unfold development. destruct NODE_ENV as [v|].
  - rewrite negb_true_iff, String.eqb_neq. split; congruence.
  - split; [discriminate|reflexivity].
Qed.

Lemma generic_block_no_body (error : JSError) (body : JSValue) :
  ~ In (Ctx (SetBody body)) (trace (generic_block error)).
Proof.
  rewrite generic_block_eq. unfold generic_response, error_logging.
  destruct (status_accepted koa (error_response_status error));
    destruct (log options); simpl; intuition discriminate.
Qed.

Lemma noise_no_ctx (t : list Event) (op : CtxOp) :
  forallb is_diagnostic_noise t = true -> ~ In (Ctx op) t.
Proof.
  intros H Hin. rewrite forallb_forall in H.
  specialize (H _ Hin). discriminate H.
Qed.

(** C10.  Development mode is every [NODE_ENV] other than the string
    "production", unset included.  An error that reaches the outer catch
    block is handed to [render_stack_trace] in exactly those
    environments, and the block writes a body exactly when, in such an
    environment, the renderer returns a truthy body with a status the
    setter accepts: that body is then the response.  Under "production"
    the block is the counter and lines 99 to 108, so the error page
    without stack trace is only guaranteed there. *)
Theorem development_mode (ctx : Request) (error : JSError) :
  caught (downstream ctx) = Some error ->
  (development NODE_ENV = true <-> NODE_ENV <> Some "production")
  /\ trace (server ctx) =
     opening ctx ++ trace (downstream ctx) ++ boundary (downstream ctx)
       ++ closing ctx
  /\ (In (CallRenderStackTrace error (print_error options))
         (boundary (downstream ctx))
      <-> NODE_ENV <> Some "production")
  /\ (forall body,
        In (Ctx (SetBody body)) (boundary (downstream ctx))
        <-> NODE_ENV <> Some "production"
            /\ exists st,
                render_stack_trace error (print_error options) = Resolved st
                /\ response_body st = body
                /\ truthy body = true
                /\ status_accepted koa
                     (js_or (response_status st) (JNum 500)) = true)
  /\ (NODE_ENV = Some "production" ->
      boundary (downstream ctx) =
      [Increment "requests.errors"] ++ trace (generic_block error)).
Proof.
  intros Hc. split; [exact development_iff|].
  split; [apply server_trace|].
  unfold boundary. rewrite Hc.
  destruct (outer_catch_cases error)
    as [[Hp [st (Hr & Hd & Hb & Ha & Ho)]]
       | [Hp [before (Hdb & Hn & Hcalls & Ho)]]];
    rewrite Ho; cbn [trace fst].
  - pose proof (proj1 development_iff Hd) as Hnp.
    split; [|split].
    + split; [intros _; exact Hnp|intros _; right; now left].
    + intros body. split.
      * intros H. simpl in H.
        destruct H as [H|[H|[H|[H|[H|[]]]]]]; try discriminate H.
        injection H as <-. split; [exact Hnp|].
        exists st. now repeat split.
      * intros [_ [st' (Hr' & Hbody & _ & _)]].
        rewrite Hr in Hr'. injection Hr' as <-. subst body.
        simpl. tauto.
    + intros Hprod. contradiction.
  - split; [|split].
    + split.
      * intros H. apply development_iff.
        destruct (development NODE_ENV); [reflexivity|].
        exfalso. apply in_app_or in H. destruct H as [H|H].
        -- simpl in H. destruct H as [H|[]]. discriminate H.
        -- apply in_app_or in H. destruct H as [H|H].
           ++ assert (Hin : In (CallRenderStackTrace error (print_error options))
                              (calls before))
                by (apply filter_In; split; [exact H|reflexivity]).
              rewrite Hcalls in Hin. destruct Hin.
           ++ exact (generic_block_no_renderer _ _ _ H).
      * intros Hnp. apply development_iff in Hnp.
        apply in_or_app. right. apply in_or_app. left.
        assert (Hin : In (CallRenderStackTrace error (print_error options))
                        (calls before))
          by (rewrite Hcalls, Hnp; now left).
        apply filter_In in Hin. exact (proj1 Hin).
    + intros body. split.
      * intros H. exfalso. apply in_app_or in H. destruct H as [H|H].
        -- simpl in H. destruct H as [H|[]]. discriminate H.
        -- apply in_app_or in H. destruct H as [H|H].
           ++ exact (noise_no_ctx _ _ Hn H).
           ++ exact (generic_block_no_body _ _ H).
      * intros [Hnp [st (Hr & Hbody & Hb & Ha)]]. exfalso. subst body.
        apply development_iff in Hnp.
        unfold serves_diagnostic_page in Hp.
        rewrite Hnp, Hr, Hb, Ha in Hp. discriminate Hp.
    + intros Hprod.
      assert (Hd : development NODE_ENV = false)
        by (rewrite Hprod; reflexivity).
      rewrite (diagnostic_off error Hd) in Hdb.
      injection Hdb as <-. reflexivity.
Qed.

(** ** A resolved render *)

(** C5, as amended.  When [render] resolves to a result without
    [redirect]: if the result has no [status] (a falsy one), the
    rendering middleware leaves the response status alone and assigns
    [content] to the body; if it has a [status] that the setter accepts,
    the response status is that value and the body is [content]; if it
    has a [status] that the setter rejects, line 167 throws inside the
    [try], [content] is never assigned and the [catch] block of line 172
    runs on what the setter threw, as it does on a rejection of
    [render]. *)
Theorem content_response (ctx : Request) (r : RenderResult) :
  render ctx = Resolved r ->
  truthy (redirect r) = false ->
  let url := replace_trailing_question_mark (originalUrl ctx) in
  let response := response_of (trace (server ctx)) in
  if truthy (status r) && negb (status_accepted koa (status r))
  then let thrown := status_error koa (status r) in
       match error_handler with
       | None =>
           rendering_middleware ctx =
           ([Increment ("request.url.hits." ++ url)%string;
             CallRender ctx;
             Increment "requests.errors.handled"],
            Throw thrown)
       | Some handler =>
           rendering_middleware ctx =
           ([Increment ("request.url.hits." ++ url)%string;
             CallRender ctx;
             Increment "requests.errors.handled";
             CallErrorHandler thrown url]
              ++ redirect_events (handler_redirects (handler thrown url)),
            match handler_result (handler thrown url) with
            | Resolved v => Normal v
            | Rejected e' => Throw e'
            end)
       end
  else rendering_middleware ctx =
       ([Increment ("request.url.hits." ++ url)%string; CallRender ctx]
          ++ (if truthy (status r) then [Ctx (SetStatus (status r))] else [])
          ++ [Ctx (SetBody (content r))],
        Normal JUndefined)
       /\ (custom_middleware = [] ->
           res_status response
           = (if truthy (status r) then Some (status r) else None)
           /\ res_body response = Some (content r)
           /\ res_location response = None
           /\ res_message response = None).
Proof.
  intros Hr Ht url response. subst response.
  destruct (truthy (status r) && negb (status_accepted koa (status r)))
    eqn:Hs.
  - assert (He : rendering_error ctx = Some (status_error koa (status r)))
      by (unfold rendering_error; rewrite Hr, Ht, Hs; reflexivity).
    cbv zeta. destruct error_handler as [handler|] eqn:Hh.
    + exact (rendering_failed_handler ctx _ handler He Hh).
    + exact (rendering_failed_no_handler ctx _ He Hh).
  - pose proof (rendering_content ctx r Hr Ht Hs) as Hm. fold url in Hm.
    split; [exact Hm|]. intros Hc.
    rewrite response_of_server, (downstream_no_custom ctx Hc), Hm.
    unfold boundary, caught. cbn [trace fst completion snd].
    destruct (truthy (status r)); repeat split.
Qed.

(** C6.  When [render] resolves to a result with a [redirect] (a truthy
    value, as every non-empty URL is), the rendering middleware redirects
    to that value and returns: it assigns neither a status nor a body. *)
Theorem redirect_response (ctx : Request) (r : RenderResult) :
  render ctx = Resolved r ->
  truthy (redirect r) = true ->
  let url := replace_trailing_question_mark (originalUrl ctx) in
  rendering_middleware ctx =
  ([Increment ("request.url.hits." ++ url)%string;
    CallRender ctx;
    Ctx (Redirect (redirect r))],
   Normal JUndefined)
  /\ (custom_middleware = [] ->
      trace (server ctx) =
      opening ctx
        ++ [Increment ("request.url.hits." ++ url)%string;
            CallRender ctx;
            Ctx (Redirect (redirect r))]
        ++ closing ctx
      /\ response_of (trace (server ctx)) =
         mkResponse None None None None (Some (redirect r))).
Proof.
  intros Hr Ht url.
  pose proof (rendering_redirect ctx r Hr Ht) as Hm. fold url in Hm.
  split; [exact Hm|]. intros Hc.
  rewrite response_of_server, server_trace, (downstream_no_custom ctx Hc), Hm.
  split; reflexivity.
Qed.

(** ** The timers *)

Lemma redirect_events_no_timer (tos : list JSValue) :
  count is_timer_event (redirect_events tos) = 0.
Proof.
  induction tos as [|to tos IH]; [reflexivity|exact IH].
Qed.

Lemma rendering_no_timer (ctx : Request) :
  count is_timer_event (trace (rendering_middleware ctx)) = 0.
Proof.
  rendering_paths ctx.
  - reflexivity.
  - destruct (truthy (status r)); reflexivity.
  - cbn [trace fst]. rewrite count_app, redirect_events_no_timer.
    reflexivity.
  - reflexivity.
Qed.

Lemma boundary_no_timer (next : M JSValue) :
  count is_timer_event (boundary next) = 0.
Proof.
  unfold boundary. destruct (caught next) as [error|]; [|reflexivity].
  apply outer_catch_no_timer.
Qed.

Lemma opening_timers (ctx : Request) :
  let url_timer :=
    ("request.url.time."
     ++ replace_trailing_question_mark (originalUrl ctx))%string in
  count (is_started "request") (opening ctx) = 1
  /\ count (is_started url_timer) (opening ctx) = 1
  /\ count (is_finished "request") (opening ctx) = 0
  /\ count (is_finished url_timer) (opening ctx) = 0.
Proof.
  unfold count, opening. simpl. rewrite String.eqb_refl. now repeat split.
Qed.

Lemma closing_timers (ctx : Request) :
  let url_timer :=
    ("request.url.time."
     ++ replace_trailing_question_mark (originalUrl ctx))%string in
  count (is_started "request") (closing ctx) = 0
  /\ count (is_started url_timer) (closing ctx) = 0
  /\ count (is_finished "request") (closing ctx) = 1
  /\ count (is_finished url_timer) (closing ctx) = 1.
Proof.
  unfold count, closing. simpl. rewrite String.eqb_refl. now repeat split.
Qed.

(** C7.  For every request the error-handling middleware starts the
    [request] timer and the timer of the url before it calls the rest of
    the chain, and stops each of them once, last of all, whether the
    rest of the chain returned or threw; nothing it does in between
    starts or stops a timer, and neither does the rendering middleware.
    On a server without custom middleware each timer is thus started
    once and stopped once per request. *)
Theorem timers_stopped_once (ctx : Request) :
  let url := replace_trailing_question_mark (originalUrl ctx) in
  let url_timer := ("request.url.time." ++ url)%string in
  let t := trace (server ctx) in
  let below := trace (downstream ctx) in
  (exists caught_part,
      t = [Increment "request.count";
           Increment ("request.url.count." ++ url)%string;
           Started "request";
           Started url_timer]
            ++ below ++ caught_part
            ++ [Finished "request"; Finished url_timer]
      /\ count is_timer_event caught_part = 0)
  /\ count (is_started "request") t = 1 + count (is_started "request") below
  /\ count (is_started url_timer) t = 1 + count (is_started url_timer) below
  /\ count (is_finished "request") t
     = count (is_finished "request") below + 1
  /\ count (is_finished url_timer) t
     = count (is_finished url_timer) below + 1
  /\ count is_timer_event (trace (rendering_middleware ctx)) = 0
  /\ (custom_middleware = [] ->
      count (is_started "request") t = 1
      /\ count (is_started url_timer) t = 1
      /\ count (is_finished "request") t = 1
      /\ count (is_finished url_timer) t = 1).
Proof.
  intros url url_timer t below.
  pose proof (boundary_no_timer (downstream ctx)) as Hb.
  destruct (opening_timers ctx) as (Ho1 & Ho2 & Ho3 & Ho4).
  destruct (closing_timers ctx) as (Hc1 & Hc2 & Hc3 & Hc4).
  fold url in Ho2, Ho4, Hc2, Hc4. fold url_timer in Ho2, Ho4, Hc2, Hc4.
  assert (Ht : t = opening ctx ++ below ++ boundary (downstream ctx)
                     ++ closing ctx)
    by (subst t; apply server_trace).
  assert (Hcount :
            count (is_started "request") t
            = 1 + count (is_started "request") below
            /\ count (is_started url_timer) t
               = 1 + count (is_started url_timer) below
            /\ count (is_finished "request") t
               = count (is_finished "request") below + 1
            /\ count (is_finished url_timer) t
               = count (is_finished url_timer) below + 1).
  { rewrite Ht, !count_app.
    rewrite Ho1, Ho2, Ho3, Ho4, Hc1, Hc2, Hc3, Hc4.
    rewrite !(no_timer_no_started _ _ Hb), !(no_timer_no_finished _ _ Hb).
    lia. }
  destruct Hcount as (H1 & H2 & H3 & H4).
  split; [exists (boundary (downstream ctx)); split; [exact Ht|exact Hb]|].
  repeat (split; [assumption|]).
  split; [apply rendering_no_timer|].
  intros Hm. rewrite H1, H2, H3, H4. subst below.
  rewrite (downstream_no_custom ctx Hm).
  rewrite !(no_timer_no_started _ _ (rendering_no_timer ctx)),
    !(no_timer_no_finished _ _ (rendering_no_timer ctx)).
  now repeat split.
Qed.

(** ** The url of the metrics *)

Lemma replace_question_mark_last (q : string) :
  replace_trailing_question_mark (q ++ "?")%string = q.
Proof.
  induction q as [|c q IH]; [reflexivity|].
  destruct q as [|d q]; [reflexivity|].
  change (String c (replace_trailing_question_mark (String d q ++ "?")%string)
          = String c (String d q)).
  now rewrite IH.
Qed.

Lemma replace_question_mark_none (s : string) :
  (forall q, s <> (q ++ "?")%string) ->
  replace_trailing_question_mark s = s.
Proof.
  induction s as [|c s IH]; intros H; [reflexivity|].
  destruct s as [|d s].
  - simpl. destruct (Ascii.eqb c question_mark) eqn:E; [|reflexivity].
    apply Ascii.eqb_eq in E. subst c. exfalso. now apply (H ""%string).
  - change (String c (replace_trailing_question_mark (String d s))
            = String c (String d s)).
    rewrite IH; [reflexivity|].
    intros q Hq. apply (H (String c q)). simpl. now rewrite Hq.
Qed.

Lemma rendering_first_event (ctx : Request) :
  exists rest,
    trace (rendering_middleware ctx) =
    Increment ("request.url.hits."
               ++ replace_trailing_question_mark (originalUrl ctx))%string
      :: rest.
Proof.
  rendering_paths ctx; eexists; reflexivity.
Qed.

(** C9.  The url the metrics are labelled with is the request path
    without its last character when that is a question mark, and the
    request path itself otherwise; one question mark is removed, so a
    path that ends in two keeps one.  The counters and the timer of the
    url are named after it. *)
Theorem metrics_url (path : string) :
  let url := replace_trailing_question_mark path in
  (forall q, path = (q ++ "?")%string -> url = q)
  /\ ((forall q, path <> (q ++ "?")%string) -> url = path)
  /\ (forall q, path = (q ++ "??")%string -> url = (q ++ "?")%string)
  /\ (exists rest,
        trace (server (mkRequest path)) =
        [Increment "request.count";
         Increment ("request.url.count." ++ url)%string;
         Started "request";
         Started ("request.url.time." ++ url)%string] ++ rest)
  /\ (exists rest,
        trace (rendering_middleware (mkRequest path)) =
        Increment ("request.url.hits." ++ url)%string :: rest).
Proof.
  intros url. subst url. split; [|split; [|split; [|split]]].
  - intros q ->. apply replace_question_mark_last.
  - apply replace_question_mark_none.
  - intros q ->.
    replace (q ++ "??")%string with ((q ++ "?") ++ "?")%string.
    + apply replace_question_mark_last.
    + induction q as [|c q IH]; [reflexivity|]. simpl. now rewrite IH.
  - rewrite server_trace. eexists. reflexivity.
  - apply (rendering_first_event (mkRequest path)).
Qed.
(** * Further properties *)

(** ** The outer catch block *)

(** X1.  In development mode, when [render_stack_trace] returns without
    a body, the outer catch block goes on with lines 99 to 108 as it
    does outside development mode: a [response_status] the renderer
    returned is dropped, and neither the body nor the type of the
    response is assigned.  When the setter accepts the status of the
    error, the status and the message are derived from the error; when
    it does not, nothing is assigned and the middleware throws what the
    setter threw. *)
Theorem no_body_falls_through
        (ctx : Request) (error : JSError) (st : StackTrace) :
  development NODE_ENV = true ->
  caught (downstream ctx) = Some error ->
  render_stack_trace error (print_error options) = Resolved st ->
  truthy (response_body st) = false ->
  let response := response_of (trace (server ctx)) in
  let below := response_of (trace (downstream ctx)) in
  boundary (downstream ctx) =
  [Increment "requests.errors";
   CallRenderStackTrace error (print_error options)]
    ++ trace (generic_block error)
  /\ if status_accepted koa (error_response_status error)
     then trace (generic_block error) = generic_response error
          /\ res_status response =
             Some (if typeof_number (error_status error)
                   then error_status error
                   else JNum 500)
          /\ res_message response =
             Some (js_or (error_message error) (JStr "Internal error"))
          /\ res_body response = res_body below
          /\ res_type response = res_type below
     else trace (generic_block error) = error_logging error
          /\ response = below
          /\ completion (server ctx) =
             Throw (status_error koa (error_response_status error)).
Proof.
  intros Hd Hc Hr Hb response below. subst response below.
  assert (Hp : serves_diagnostic_page error = false)
    by (unfold serves_diagnostic_page; rewrite Hd, Hr, Hb; reflexivity).
  pose proof (outer_catch_through error _ (diagnostic_no_body error st Hd Hr Hb))
    as Ho.
  rewrite response_of_server, server_completion, (escaping_generic _ _ Hc Hp).
  unfold boundary. rewrite Hc, Ho. cbn [trace fst].
  split; [reflexivity|].
  rewrite !response_after_app, response_after_generic_block, generic_block_eq.
  destruct (status_accepted koa (error_response_status error));
    cbn [trace fst]; repeat split.
Qed.

Lemma logged_errors_app (t u : list Event) :
  logged_errors (t ++ u) = logged_errors t ++ logged_errors u.
Proof.
  apply flat_map_app.
Qed.

Lemma logged_errors_generic_block (error : JSError) :
  logged_errors (trace (generic_block error))
  = if log options then [error] else [].
Proof.
  rewrite generic_block_eq. unfold generic_response, error_logging.
  destruct (status_accepted koa (error_response_status error));
    destruct (log options); reflexivity.
Qed.

Lemma server_error_line_generic_block (error : JSError) :
  In server_error_line (trace (generic_block error)).
Proof.
  rewrite generic_block_eq.
  destruct (status_accepted koa (error_response_status error));
    left; reflexivity.
Qed.

(** X2.  An error that reaches the outer catch block is handed to
    [options.log.error] once when a logger is configured, and the server
    error line is printed to the console, unless the diagnostic page is
    served: then the block returns before line 99 and the error is
    logged nowhere.  The page is served when, in development mode, the
    renderer returns a truthy body and the setter accepts the status of
    line 85. *)
Theorem errors_logged_unless_page_served (error : JSError) :
  logged_errors (trace (outer_catch error))
  = (if serves_diagnostic_page error then []
     else if log options then [error] else [])
  /\ (In server_error_line (trace (outer_catch error))
      <-> serves_diagnostic_page error = false).
Proof.
  destruct (outer_catch_cases error)
    as [[Hp [st (_ & _ & _ & _ & Ho)]] | [Hp [before (_ & Hn & _ & Ho)]]];
    rewrite Hp, Ho; cbn [trace fst].
  - split; [reflexivity|]. split; [|discriminate].
    unfold server_error_line. simpl. intuition discriminate.
  - destruct (noise_observations before Hn) as (_ & Hl & _).
    rewrite !logged_errors_app, Hl, logged_errors_generic_block.
    split; [reflexivity|]. split; [reflexivity|]. intros _.
    apply in_or_app. right. apply in_or_app. right.
    apply server_error_line_generic_block.
Qed.

Lemma js_or_truthy (a b : JSValue) :
  truthy b = true -> truthy (js_or a b) = true.
Proof.
  intros Hb. unfold js_or. destruct (truthy a) eqn:Ha; assumption.
Qed.

Lemma error_response_status_number (error : JSError) :
  typeof_number (error_response_status error) = true.
Proof.
  unfold error_response_status.
  destruct (typeof_number (error_status error)) eqn:E; [exact E|reflexivity].
Qed.

(** X3.  The outer catch block answers all or nothing.  Either the
    diagnostic page is served: the status is truthy (the one of the
    renderer, or 500), the body is the truthy body of the renderer, the
    type is html, and the block returns.  Or the generic response is
    written: the status is a number (the one of the error, or 500) and
    the message is truthy (the one of the error, or "Internal error"),
    body and type untouched.  Or the setter rejects the status of line
    107: then nothing at all is assigned, no message either, and the
    block throws what the setter threw. *)
Theorem boundary_all_or_nothing (error : JSError) (r : Response) :
  let response := response_after r (trace (outer_catch error)) in
  if serves_diagnostic_page error
  then exists st,
      render_stack_trace error (print_error options) = Resolved st
      /\ response =
         mkResponse (Some (js_or (response_status st) (JNum 500)))
           (Some (response_body st)) (Some "html")
           (res_message r) (res_location r)
      /\ truthy (js_or (response_status st) (JNum 500)) = true
      /\ truthy (response_body st) = true
      /\ completion (outer_catch error) = Return JUndefined
  else if status_accepted koa (error_response_status error)
  then response =
       mkResponse (Some (error_response_status error))
         (res_body r) (res_type r)
         (Some (error_response_message error)) (res_location r)
       /\ typeof_number (error_response_status error) = true
       /\ truthy (error_response_message error) = true
       /\ completion (outer_catch error) = Normal tt
  else response = r
       /\ completion (outer_catch error)
          = Throw (status_error koa (error_response_status error)).
Proof.
  intros response. subst response.
  destruct (outer_catch_cases error)
    as [[Hp [st (Hr & _ & Hb & _ & Ho)]] | [Hp [before (_ & Hn & _ & Ho)]]];
    rewrite Hp, Ho; cbn [trace fst completion snd].
  - exists st. split; [exact Hr|]. split; [reflexivity|].
    split; [apply js_or_truthy; reflexivity|]. split; [exact Hb|reflexivity].
  - rewrite !response_after_app, (noise_response _ _ Hn).
    change (response_after r [Increment "requests.errors"]) with r.
    rewrite response_after_generic_block, generic_block_eq.
    destruct (status_accepted koa (error_response_status error));
      cbn [completion snd].
    + split; [reflexivity|]. split; [apply error_response_status_number|].
      split; [apply js_or_truthy; reflexivity|reflexivity].
    + split; reflexivity.
Qed.

(** X4.  When the rest of the chain does not throw, custom middleware
    included, the error-handling middleware adds nothing between its
    opening and its closing and leaves the response as the rest of the
    chain made it. *)
Theorem success_leaves_response (ctx : Request) :
  caught (downstream ctx) = None ->
  trace (server ctx) =
  opening ctx ++ trace (downstream ctx) ++ closing ctx
  /\ response_of (trace (server ctx)) = response_of (trace (downstream ctx))
  /\ increments (trace (server ctx)) =
     increments (opening ctx) ++ increments (trace (downstream ctx))
  /\ logged_errors (trace (server ctx))
     = logged_errors (trace (downstream ctx)).
Proof.
  intros Hc.
  assert (Ht : trace (server ctx) =
               opening ctx ++ trace (downstream ctx) ++ closing ctx).
  { rewrite server_trace. unfold boundary. rewrite Hc. reflexivity. }
  split; [exact Ht|].
  split; [rewrite response_of_server; unfold boundary; rewrite Hc;
          reflexivity|].
  rewrite Ht. unfold increments, logged_errors.
  rewrite !flat_map_app. cbn [closing flat_map app].
  rewrite !app_nil_r. split; reflexivity.
Qed.

(** ** The counters *)

Lemma increments_app (t u : list Event) :
  increments (t ++ u) = increments t ++ increments u.
Proof.
  apply flat_map_app.
Qed.

Lemma increments_redirects (tos : list JSValue) :
  increments (redirect_events tos) = [].
Proof.
  induction tos as [|to tos IH]; [reflexivity|exact IH].
Qed.

Lemma increments_generic_block (error : JSError) :
  increments (trace (generic_block error)) = [].
Proof.
  rewrite generic_block_eq. unfold generic_response, error_logging.
  destruct (status_accepted koa (error_response_status error));
    destruct (log options); reflexivity.
Qed.

(** The outer catch block increments [requests.errors] and nothing
    else. *)
Lemma increments_outer_catch (error : JSError) :
  increments (trace (outer_catch error)) = ["requests.errors"].
Proof.
  destruct (outer_catch_cases error)
    as [[_ [st (_ & _ & _ & _ & Ho)]] | [_ [before (_ & Hn & _ & Ho)]]];
    rewrite Ho; cbn [trace fst]; [reflexivity|].
  destruct (noise_observations before Hn) as (_ & _ & Hi & _).
  rewrite !increments_app, Hi, increments_generic_block. reflexivity.
Qed.

(** X5.  The counters of a request on a server without custom
    middleware, in order: [request.count], the count and the hits of the
    url, then [requests.errors.handled] when the [catch] block of the
    rendering middleware is entered ([render] rejected, or the setter
    rejected the status of the result), whether or not an error handler
    resolves the error, and [requests.errors] after it when no handler
    is configured or the handler throws.  So [requests.errors] is never
    incremented without [requests.errors.handled]. *)
Theorem counters_of_request (ctx : Request) :
  custom_middleware = [] ->
  let url := replace_trailing_question_mark (originalUrl ctx) in
  let counters := increments (trace (server ctx)) in
  counters =
  ["request.count";
   ("request.url.count." ++ url)%string;
   ("request.url.hits." ++ url)%string]
    ++ match rendering_error ctx with
       | None => []
       | Some e =>
           "requests.errors.handled"
             :: match error_handler with
                | None => ["requests.errors"]
                | Some handler =>
                    match handler_result (handler e url) with
                    | Resolved _ => []
                    | Rejected _ => ["requests.errors"]
                    end
                end
       end
  /\ (In "requests.errors" counters -> In "requests.errors.handled" counters).
Proof.
  intros Hm url counters.
  assert (Hc : counters =
    ["request.count";
     ("request.url.count." ++ url)%string;
     ("request.url.hits." ++ url)%string]
      ++ match rendering_error ctx with
         | None => []
         | Some e =>
             "requests.errors.handled"
               :: match error_handler with
                  | None => ["requests.errors"]
                  | Some handler =>
                      match handler_result (handler e url) with
                      | Resolved _ => []
                      | Rejected _ => ["requests.errors"]
                      end
                  end
         end).
  { subst counters. rewrite server_trace.
    rewrite (downstream_no_custom ctx Hm).
    rewrite !increments_app. unfold boundary, caught.
    rendering_paths ctx; rewrite He.
    - reflexivity.
    - destruct (truthy (status r)); reflexivity.
    - fold url. cbn [trace fst completion snd].
      rewrite increments_app, increments_redirects.
      destruct (handler_result (handler e url)) as [v|e'].
      + reflexivity.
      + rewrite increments_outer_catch. reflexivity.
    - cbn [trace fst completion snd].
      rewrite increments_outer_catch. reflexivity. }
  split; [exact Hc|].
  rewrite Hc. destruct (rendering_error ctx) as [e|].
  - intros _. do 3 right. left. reflexivity.
  - simpl. intuition discriminate.
Qed.

(** ** The response after an error handler *)

Lemma response_after_redirects (r : Response) (tos : list JSValue) :
  response_after r (redirect_events tos) =
  mkResponse (res_status r) (res_body r) (res_type r) (res_message r)
    (last_redirect tos (res_location r)).
Proof.
  revert r. induction tos as [|to tos IH]; intros r.
  - destruct r. reflexivity.
  - change (response_after (assign r (Redirect to)) (redirect_events tos)
            = mkResponse (res_status r) (res_body r) (res_type r)
                (res_message r) (last_redirect tos (Some to))).
    rewrite IH. reflexivity.
Qed.

Lemma logged_errors_redirects (tos : list JSValue) :
  logged_errors (redirect_events tos) = [].
Proof.
  induction tos as [|to tos IH]; [reflexivity|exact IH].
Qed.

(** X6.  When [render] rejects and the error handler returns, on a server
    without custom middleware, nothing of the error reaches the
    response: status, body, type and message stay unassigned, and the
    location is the last redirect of the handler, if it made one. *)
Theorem handled_rejection_response
        (ctx : Request) (e : JSError) (handler : ErrorHandler)
        (v : JSValue) :
  custom_middleware = [] ->
  render ctx = Rejected e ->
  error_handler = Some handler ->
  let url := replace_trailing_question_mark (originalUrl ctx) in
  handler_result (handler e url) = Resolved v ->
  response_of (trace (server ctx)) =
  mkResponse None None None None
    (last_redirect (handler_redirects (handler e url)) None)
  /\ logged_errors (trace (server ctx)) = []
  /\ completion (rendering_middleware ctx) = Normal v.
Proof.
  intros Hm Hr Hh url Hv.
  pose proof (rendering_failed_handler ctx e handler
                (rendering_error_rejected ctx e Hr) Hh) as Hrm.
  cbv zeta in Hrm. fold url in Hrm. rewrite Hv in Hrm.
  rewrite response_of_server, server_trace, (downstream_no_custom ctx Hm), Hrm.
  unfold boundary, caught. cbn [trace fst completion snd].
  split; [|split; [|reflexivity]].
  - unfold response_of. cbn [response_after fold_left app].
    change (response_after untouched
              (redirect_events (handler_redirects (handler e url)))
            = mkResponse None None None None
                (last_redirect (handler_redirects (handler e url)) None)).
    apply response_after_redirects.
  - rewrite !logged_errors_app. cbn [app].
    rewrite logged_errors_redirects. reflexivity.
Qed.

(** X7.  When the error handler redirects and then throws, outside
    development mode and without custom middleware, the redirect is not
    undone: the response keeps the location of the last redirect.  When
    the setter accepts the status of what the handler threw, the
    response takes that status and the message of what the handler
    threw; when it does not, the location is all the response has. *)
Theorem redirect_then_throw_response
        (ctx : Request) (e e' : JSError) (handler : ErrorHandler) :
  custom_middleware = [] ->
  development NODE_ENV = false ->
  render ctx = Rejected e ->
  error_handler = Some handler ->
  let url := replace_trailing_question_mark (originalUrl ctx) in
  handler_result (handler e url) = Rejected e' ->
  response_of (trace (server ctx)) =
  if status_accepted koa (error_response_status e')
  then mkResponse
         (Some (if typeof_number (error_status e')
                then error_status e'
                else JNum 500))
         None None
         (Some (js_or (error_message e') (JStr "Internal error")))
         (last_redirect (handler_redirects (handler e url)) None)
  else mkResponse None None None None
         (last_redirect (handler_redirects (handler e url)) None).
Proof.
  intros Hm Hd Hr Hh url He'.
  pose proof (rendering_failed_handler ctx e handler
                (rendering_error_rejected ctx e Hr) Hh) as Hrm.
  cbv zeta in Hrm. fold url in Hrm. rewrite He' in Hrm.
  rewrite response_of_server, (downstream_no_custom ctx Hm), Hrm.
  unfold boundary, caught. cbn [trace fst completion snd].
  rewrite (outer_catch_through e' [] (diagnostic_off e' Hd)).
  cbn [trace fst app].
  change (Increment "requests.errors" :: trace (generic_block e'))
    with ([Increment "requests.errors"] ++ trace (generic_block e')).
  rewrite response_after_app.
  change (response_after ?r [Increment "requests.errors"]) with r.
  rewrite response_after_generic_block.
  unfold response_of. cbn [response_after fold_left app].
  change (fold_left _ (redirect_events ?tos) untouched)
    with (response_after untouched (redirect_events tos)).
  rewrite response_after_redirects.
  destruct (status_accepted koa (error_response_status e')); reflexivity.
Qed.

(** ** Custom middleware *)

Lemma trace_invoke (f : M JSValue) :
  trace (invoke f) = trace f.
Proof.
  destruct f as [t [v|v|e]]; reflexivity.
Qed.

Lemma compose_no_timer
      (ctx : Request) (mws : list Middleware) (last : M JSValue) :
  Forall keeps_timers mws ->
  count is_timer_event (trace last) = 0 ->
  count is_timer_event (trace (compose ctx mws last)) = 0.
Proof.
  intros Hk Hl. induction Hk as [|mw mws Hmw _ IH]; [exact Hl|].
  cbn [compose]. rewrite trace_invoke. apply Hmw. exact IH.
Qed.

Lemma server_timer_counts (ctx : Request) :
  count is_timer_event (trace (downstream ctx)) = 0 ->
  let url_timer :=
    ("request.url.time."
     ++ replace_trailing_question_mark (originalUrl ctx))%string in
  let t := trace (server ctx) in
  count (is_started "request") t = 1
  /\ count (is_started url_timer) t = 1
  /\ count (is_finished "request") t = 1
  /\ count (is_finished url_timer) t = 1.
Proof.
  intros Hd url_timer t. subst t.
  pose proof (boundary_no_timer (downstream ctx)) as Hb.
  destruct (opening_timers ctx) as (Ho1 & Ho2 & Ho3 & Ho4).
  destruct (closing_timers ctx) as (Hc1 & Hc2 & Hc3 & Hc4).
  fold url_timer in Ho2, Ho4, Hc2, Hc4.
  rewrite server_trace. rewrite !count_app.
  rewrite Ho1, Ho2, Ho3, Ho4, Hc1, Hc2, Hc3, Hc4.
  rewrite !(no_timer_no_started _ _ Hb), !(no_timer_no_finished _ _ Hb).
  rewrite !(no_timer_no_started _ _ Hd), !(no_timer_no_finished _ _ Hd).
  repeat split.
Qed.

(** X9.  Custom middleware does not break the discipline of the timers:
    as long as each custom middleware starts and stops no timer itself,
    whether it calls [next], swallows what [next] throws or throws
    itself, each of the two timers is started once and stopped once per
    request. *)
Theorem timers_with_custom_middleware (ctx : Request) :
  Forall keeps_timers custom_middleware ->
  let url_timer :=
    ("request.url.time."
     ++ replace_trailing_question_mark (originalUrl ctx))%string in
  let t := trace (server ctx) in
  count (is_started "request") t = 1
  /\ count (is_started url_timer) t = 1
  /\ count (is_finished "request") t = 1
  /\ count (is_finished url_timer) t = 1.
Proof.
  intros Hk. apply server_timer_counts.
  apply compose_no_timer; [exact Hk|apply rendering_no_timer].
Qed.

(** ** More on the url of the metrics *)

Lemma append_length (s s' : string) :
  String.length (s ++ s')%string = String.length s + String.length s'.
Proof.
  induction s as [|c s IH]; [reflexivity|]. simpl. now rewrite IH.
Qed.

Lemma replace_question_mark_suffix (s : string) :
  exists suffix,
    s = (replace_trailing_question_mark s ++ suffix)%string
    /\ (suffix = ""%string \/ suffix = "?"%string).
Proof.
  induction s as [|c s IH].
  - exists ""%string. split; [reflexivity|now left].
  - destruct s as [|d s].
    + simpl. destruct (Ascii.eqb c question_mark) eqn:E.
      * apply Ascii.eqb_eq in E. subst c.
        exists "?"%string. split; [reflexivity|now right].
      * exists ""%string. split; [reflexivity|now left].
    + destruct IH as [suffix [Hs Hc]]. exists suffix. split; [|exact Hc].
      change (String c (String d s)
              = String c (replace_trailing_question_mark (String d s)
                          ++ suffix)%string).
      now rewrite <- Hs.
Qed.

(** X10.  The url of the metrics is the request path cut at its end by
    nothing or by one question mark: it is a prefix of the path, at most
    one character shorter, and it is the path itself exactly when the
    path does not end in a question mark. *)
Theorem metrics_url_prefix (path : string) :
  let url := replace_trailing_question_mark path in
  (exists suffix,
      path = (url ++ suffix)%string
      /\ (suffix = ""%string \/ suffix = "?"%string))
  /\ String.length url <= String.length path <= String.length url + 1
  /\ (url = path <-> forall q, path <> (q ++ "?")%string).
Proof.
  intros url. subst url.
  destruct (replace_question_mark_suffix path) as [suffix [Hs Hc]].
  split; [exists suffix; split; assumption|].
  split.
  - rewrite Hs at 2 3. rewrite append_length.
    destruct Hc as [-> | ->]; simpl; lia.
  - split.
    + intros Hu q Hq. subst path.
      rewrite replace_question_mark_last in Hu.
      apply (f_equal String.length) in Hu.
      rewrite append_length in Hu. simpl in Hu. lia.
    + apply replace_question_mark_none.
Qed.

(** ** What the server never does *)

Lemma sound_status_redirects (tos : list JSValue) :
  forallb sound_status (redirect_events tos) = true.
Proof.
  induction tos as [|to tos IH]; [reflexivity|exact IH].
Qed.

Lemma sound_status_generic_block (error : JSError) :
  forallb sound_status (trace (generic_block error)) = true.
Proof.
  rewrite generic_block_eq. unfold generic_response, error_logging.
  destruct (status_accepted koa (error_response_status error));
    destruct (log options); simpl;
    destruct (typeof_number (error_status error)) eqn:E;
    rewrite ?E, ?orb_true_r; reflexivity.
Qed.

Lemma sound_status_outer_catch (error : JSError) :
  forallb sound_status (trace (outer_catch error)) = true.
Proof.
  destruct (outer_catch_cases error)
    as [[_ [st (_ & _ & _ & _ & Ho)]] | [_ [before (_ & Hn & _ & Ho)]]];
    rewrite Ho; cbn [trace fst].
  - simpl. rewrite (js_or_truthy (response_status st) (JNum 500) eq_refl).
    reflexivity.
  - destruct (noise_observations before Hn) as (_ & _ & _ & _ & Hs).
    rewrite !forallb_app, Hs, sound_status_generic_block. reflexivity.
Qed.

Lemma sound_status_rendering (ctx : Request) :
  forallb sound_status (trace (rendering_middleware ctx)) = true.
Proof.
  rendering_paths ctx.
  - reflexivity.
  - destruct (truthy (status r)) eqn:Hst; simpl; rewrite ?Hst; reflexivity.
  - cbn [trace fst]. rewrite forallb_app, sound_status_redirects.
    reflexivity.
  - reflexivity.
Qed.

(** X11.  On a server without custom middleware, every value assigned
    to the response status, on any path, is truthy or a number: the
    server never assigns [undefined], [null], [false] or an empty string
    as a status, whatever [render], the error handler and
    [render_stack_trace] return or throw. *)
Theorem assigned_status_sound (ctx : Request) (v : JSValue) :
  custom_middleware = [] ->
  In (Ctx (SetStatus v)) (trace (server ctx)) ->
  truthy v = true \/ typeof_number v = true.
Proof.
  intros Hm Hin.
  assert (Hall : forallb sound_status (trace (server ctx)) = true).
  { rewrite server_trace.
    rewrite (downstream_no_custom ctx Hm), !forallb_app.
    rewrite sound_status_rendering. unfold boundary.
    destruct (caught (rendering_middleware ctx)) as [error|].
    - rewrite sound_status_outer_catch. reflexivity.
    - reflexivity. }
  rewrite forallb_forall in Hall. specialize (Hall _ Hin).
  apply orb_true_iff. exact Hall.
Qed.

Lemma calls_app (t u : list Event) :
  calls (t ++ u) = calls t ++ calls u.
Proof.
  apply filter_app.
Qed.

Lemma calls_redirects (tos : list JSValue) :
  calls (redirect_events tos) = [].
Proof.
  induction tos as [|to tos IH]; [reflexivity|exact IH].
Qed.

Lemma calls_generic_block (error : JSError) :
  calls (trace (generic_block error)) = [].
Proof.
  rewrite generic_block_eq. unfold generic_response, error_logging.
  destruct (status_accepted koa (error_response_status error));
    destruct (log options); reflexivity.
Qed.

(** The outer catch block calls [render_stack_trace] once in development
    mode and never otherwise. *)
Lemma calls_outer_catch (error : JSError) :
  calls (trace (outer_catch error))
  = if development NODE_ENV
    then [CallRenderStackTrace error (print_error options)]
    else [].
Proof.
  destruct (outer_catch_cases error)
    as [[_ [st (_ & Hd & _ & _ & Ho)]] | [_ [before (_ & _ & Hc & Ho)]]];
    rewrite Ho; cbn [trace fst].
  - rewrite Hd. reflexivity.
  - rewrite !calls_app, Hc, calls_generic_block, app_nil_r. reflexivity.
Qed.

(** X12.  Nothing is retried.  On a server without custom middleware a
    request calls [render] once, with the request; then the error
    handler once, if the [catch] block of the rendering middleware is
    entered ([render] rejected, or the setter rejected the status of the
    result) and a handler is configured, with the error the block was
    entered with; then [render_stack_trace] once, in development mode,
    if an error reached the outer catch block, with that error. *)
Theorem calls_of_request (ctx : Request) :
  custom_middleware = [] ->
  let url := replace_trailing_question_mark (originalUrl ctx) in
  let diagnostic error :=
    if development NODE_ENV
    then [CallRenderStackTrace error (print_error options)]
    else [] in
  calls (trace (server ctx)) =
  CallRender ctx
    :: match rendering_error ctx with
       | None => []
       | Some e =>
           match error_handler with
           | None => diagnostic e
           | Some handler =>
               CallErrorHandler e url
                 :: match handler_result (handler e url) with
                    | Resolved _ => []
                    | Rejected e' => diagnostic e'
                    end
           end
       end.
Proof.
  intros Hm url diagnostic. subst diagnostic.
  rewrite server_trace.
  rewrite (downstream_no_custom ctx Hm), !calls_app.
  unfold boundary, caught.
  rendering_paths ctx; rewrite He.
  - reflexivity.
  - destruct (truthy (status r)); reflexivity.
  - fold url. cbn [trace fst completion snd].
    rewrite calls_app, calls_redirects.
    destruct (handler_result (handler e url)) as [v|e'].
    + reflexivity.
    + rewrite calls_outer_catch.
      destruct (development NODE_ENV); reflexivity.
  - cbn [trace fst completion snd].
    rewrite calls_outer_catch.
    destruct (development NODE_ENV); reflexivity.
Qed.

End Server.

(** * The scenarios *)

Definition secure : Request := mkRequest "/secure".

(** A handler that redirects and then throws: the redirect and the error
    response of the outer catch block make two response-producing
    actions. *)
Lemma response_actions_of_request_witness :
  custom_middleware (with_handler redirecting_then_throwing_handler) = []
  /\ length
       (response_actions
          (trace
             (start_webpage_rendering_server
                koa2 (Some "production")
                (with_handler redirecting_then_throwing_handler)
                render_forbidden renders_page secure))) = 2.
Proof.
  split; [reflexivity|].
  exact (response_actions_of_request
           koa2 (Some "production")
           (with_handler redirecting_then_throwing_handler)
           render_forbidden renders_page secure eq_refl).
Defined.

(** C1 as the specification states it fails on a handler that only logs
    the error: the request ends without a redirect, a body or an error
    response. *)
Lemma logging_handler_writes_no_response :
  ~ exactly_one_response
      (trace
         (start_webpage_rendering_server
            koa2 (Some "production") (with_handler logging_handler)
            render_forbidden renders_page secure)).
Proof.
  unfold exactly_one_response. vm_compute. discriminate.
Qed.

Lemma render_rejection_witness :
  render_forbidden secure = Rejected forbidden
  /\ completion
       (rendering_middleware
          koa2 (with_handler redirecting_then_throwing_handler)
          render_forbidden secure) = Throw forbidden.
Proof.
  split; [reflexivity|].
  exact (proj1 (proj2 (render_rejection
                         koa2 (Some "production")
                         (with_handler redirecting_then_throwing_handler)
                         render_forbidden renders_page secure forbidden
                         eq_refl))).
Defined.

(** C2 as the specification states it fails on a handler that throws the
    error it is given: the outer catch block is entered. *)
Lemma rethrowing_handler_reaches_boundary :
  ~ handler_keeps_boundary_out
      koa2 (Some "production") (with_handler rethrowing_handler)
      render_forbidden renders_page secure.
Proof.
  intros H.
  apply (H forbidden rethrowing_handler eq_refl eq_refl).
  unfold boundary_reached. vm_compute.
  repeat first [left; reflexivity | right].
Qed.

Lemma diagnostic_response_witness :
  development None = true
  /\ caught (downstream koa2 no_options render_forbidden secure)
     = Some forbidden
  /\ renders_page forbidden (print_error no_options)
     = Resolved stack_trace_page
  /\ truthy (response_body stack_trace_page) = true
  /\ res_status
       (response_of
          (trace
             (start_webpage_rendering_server
                koa2 None no_options render_forbidden renders_page secure)))
     = Some (JNum 500).
Proof.
  do 4 (split; [reflexivity|]).
  exact (proj2 (proj2 (proj2 (diagnostic_response
                                koa2 None no_options render_forbidden
                                renders_page secure forbidden
                                stack_trace_page
                                eq_refl eq_refl eq_refl eq_refl)))).
Defined.

(** C3 as the specification states it fails on an error with status 403
    when the renderer returns a page and no status: the response status
    is 500, where the stated precedence gives 403. *)
Lemma diagnostic_status_ignores_error_status :
  res_status
    (response_of
       (trace
          (start_webpage_rendering_server
             koa2 None no_options render_forbidden renders_page secure)))
  <> Some (spec_diagnostic_status stack_trace_page forbidden).
Proof.
  vm_compute. discriminate.
Qed.

Lemma production_error_response_witness :
  development (Some "production") = false
  /\ caught (downstream koa2 no_options render_forbidden secure)
     = Some forbidden
  /\ res_status
       (response_of
          (trace
             (start_webpage_rendering_server
                koa2 (Some "production") no_options render_forbidden
                renders_page secure)))
     = Some (JNum 403)
  /\ res_message
       (response_of
          (trace
             (start_webpage_rendering_server
                koa2 (Some "production") no_options render_forbidden
                renders_page secure)))
     = Some (JStr "Forbidden").
Proof.
  do 2 (split; [reflexivity|]).
  pose proof (proj2 (production_error_response
                       koa2 (Some "production") no_options render_forbidden
                       renders_page secure forbidden eq_refl eq_refl)) as H.
  exact (conj (proj1 (proj2 H)) (proj1 (proj2 (proj2 H)))).
Defined.

(** C4 as the specification states it fails on an error whose status is
    the number 0: the setter rejects it, line 107 throws, and neither
    that status nor the message of the error reaches the response. *)
Lemma unaccepted_error_status_is_not_assigned :
  typeof_number (error_status connection_lost) = true
  /\ res_status
       (response_of
          (trace
             (start_webpage_rendering_server
                koa2 (Some "production") no_options render_connection_lost
                renders_page secure)))
     <> Some (error_status connection_lost).
Proof.
  split; [reflexivity|]. vm_compute. discriminate.
Qed.

Lemma content_response_witness :
  render_users (mkRequest "/users?")
  = Resolved (mkResult (JNum 200) (JStr "<html>Users</html>") JUndefined)
  /\ truthy JUndefined = false
  /\ res_status
       (response_of
          (trace
             (start_webpage_rendering_server
                koa2 None no_options render_users renders_page
                (mkRequest "/users?"))))
     = Some (JNum 200)
  /\ res_body
       (response_of
          (trace
             (start_webpage_rendering_server
                koa2 None no_options render_users renders_page
                (mkRequest "/users?"))))
     = Some (JStr "<html>Users</html>").
Proof.
  do 2 (split; [reflexivity|]).
  pose proof (proj2 (content_response
                       koa2 None no_options render_users renders_page
                       (mkRequest "/users?") _ eq_refl eq_refl)
                eq_refl) as H.
  exact (conj (proj1 H) (proj1 (proj2 H))).
Defined.

(** C5 as the specification states it fails on a result whose status is
    the string '200': the setter rejects it, line 167 throws, and the
    content is never assigned to the body. *)
Lemma unaccepted_status_writes_no_content :
  render_string_status (mkRequest "/users")
  = Resolved (mkResult (JStr "200") (JStr "<html>Users</html>") JUndefined)
  /\ res_body
       (response_of
          (trace
             (start_webpage_rendering_server
                koa2 (Some "production") no_options render_string_status
                renders_page (mkRequest "/users"))))
     <> Some (JStr "<html>Users</html>").
Proof.
  split; [reflexivity|]. vm_compute. discriminate.
Qed.

Lemma redirect_response_witness :
  render_moved (mkRequest "/old-page")
  = Resolved (mkResult JUndefined JUndefined (JStr "/new-page"))
  /\ truthy (JStr "/new-page") = true
  /\ response_of
       (trace
          (start_webpage_rendering_server
             koa2 None no_options render_moved renders_page
             (mkRequest "/old-page")))
     = mkResponse None None None None (Some (JStr "/new-page")).
Proof.
  do 2 (split; [reflexivity|]).
  exact (proj2 (proj2 (redirect_response
                         koa2 None no_options render_moved renders_page
                         (mkRequest "/old-page") _ eq_refl eq_refl)
                  eq_refl)).
Defined.

Lemma timers_stopped_once_witness :
  custom_middleware (with_handler redirecting_then_throwing_handler) = []
  /\ count (is_finished "request.url.time./secure")
       (trace
          (start_webpage_rendering_server
             koa2 None (with_handler redirecting_then_throwing_handler)
             render_forbidden renderer_throws (mkRequest "/secure?")))
     = 1.
Proof.
  split; [reflexivity|].
  pose proof (timers_stopped_once
                koa2 None (with_handler redirecting_then_throwing_handler)
                render_forbidden renderer_throws (mkRequest "/secure?"))
    as H.
  cbv zeta in H.
  destruct H as (_ & _ & _ & _ & _ & _ & H).
  exact (proj2 (proj2 (proj2 (H eq_refl)))).
Defined.

Lemma renderer_failure_contained_witness :
  development None = true
  /\ caught (downstream koa2 no_options render_forbidden secure)
     = Some forbidden
  /\ renderer_throws forbidden (print_error no_options)
     = Rejected renderer_error
  /\ completion
       (start_webpage_rendering_server
          koa2 None no_options render_forbidden renderer_throws secure)
     = Normal JUndefined
  /\ res_status
       (response_of
          (trace
             (start_webpage_rendering_server
                koa2 None no_options render_forbidden renderer_throws
                secure)))
     = Some (JNum 403)
  /\ res_message
       (response_of
          (trace
             (start_webpage_rendering_server
                koa2 None no_options render_forbidden renderer_throws
                secure)))
     = Some (JStr "Forbidden").
Proof.
  do 3 (split; [reflexivity|]).
  exact (proj2 (proj2 (renderer_failure_contained
                         koa2 None no_options render_forbidden
                         renderer_throws secure forbidden renderer_error
                         eq_refl eq_refl eq_refl))).
Defined.

(** C8 as the specification states it fails when the renderer throws
    on an error whose status is the number 0: what the renderer threw is
    logged and dropped, but line 107 then throws, no response is derived
    from the original error and the error-handling middleware throws
    what the setter threw. *)
Lemma renderer_failure_then_unaccepted_status :
  renderer_throws connection_lost (print_error no_options)
  = Rejected renderer_error
  /\ completion
       (start_webpage_rendering_server
          koa2 None no_options render_connection_lost renderer_throws
          secure)
     = Throw (status_error koa2 (JNum 0))
  /\ res_message
       (response_of
          (trace
             (start_webpage_rendering_server
                koa2 None no_options render_connection_lost
                renderer_throws secure)))
     <> Some (js_or (error_message connection_lost) (JStr "Internal error")).
Proof.
  split; [reflexivity|]. split; [reflexivity|].
  vm_compute. discriminate.
Qed.

Lemma metrics_url_witness :
  "/users??" = ("/users" ++ "??")%string
  /\ replace_trailing_question_mark "/users??" = "/users?".
Proof.
  split; [reflexivity|].
  exact (proj1 (proj2 (proj2 (metrics_url
                                koa2 None no_options render_users
                                renders_page "/users??")))
           "/users" eq_refl).
Defined.

(** Under a [NODE_ENV] that is not "production" the page of the renderer
    is the body of the response. *)
Lemma development_mode_witness :
  caught (downstream koa2 no_options render_forbidden secure)
  = Some forbidden
  /\ In (CallRenderStackTrace forbidden (print_error no_options))
       (boundary koa2 (Some "staging") no_options renders_page
          (downstream koa2 no_options render_forbidden secure))
  /\ In (Ctx (SetBody (JStr "<html>Error: Forbidden</html>")))
       (boundary koa2 (Some "staging") no_options renders_page
          (downstream koa2 no_options render_forbidden secure)).
Proof.
  split; [reflexivity|].
  pose proof (development_mode
                koa2 (Some "staging") no_options render_forbidden
                renders_page secure forbidden eq_refl) as H.
  destruct H as (_ & _ & Hcall & Hbody & _).
  split.
  - apply Hcall. discriminate.
  - apply Hbody. split; [discriminate|].
    exists stack_trace_page. repeat split.
Defined.

(** With a custom middleware that catches what the rendering middleware
    throws, the error of [render] stops there: the outer catch block is
    not entered, and the timers are stopped all the same. *)
Example swallowed_rejection :
  start_webpage_rendering_server
    koa2 (Some "production")
    (mkOptions None (Some [swallowing_middleware]) false JUndefined)
    render_forbidden renders_page secure
  = ([Increment "request.count";
      Increment "request.url.count./secure";
      Started "request";
      Started "request.url.time./secure";
      Increment "request.url.hits./secure";
      CallRender secure;
      Increment "requests.errors.handled";
      Ctx (SetBody (JStr "oops"));
      Finished "request";
      Finished "request.url.time./secure"],
     Normal JUndefined).
Proof. reflexivity. Qed.

(** An error whose status the setter rejects escapes the error-handling
    middleware after it was logged, and the timers are stopped all the
    same. *)
Example unaccepted_status_escapes :
  start_webpage_rendering_server
    koa2 (Some "production") no_options render_connection_lost
    renders_page secure
  = ([Increment "request.count";
      Increment "request.url.count./secure";
      Started "request";
      Started "request.url.time./secure";
      Increment "request.url.hits./secure";
      CallRender secure;
      Increment "requests.errors.handled";
      Increment "requests.errors";
      ConsoleLog
        (LogValue
           (JStr "[react-isomorphic-render] Webpage rendering server error"));
      Finished "request";
      Finished "request.url.time./secure"],
     Throw (status_error koa2 (JNum 0))).
Proof. reflexivity. Qed.

(** ** Scenarios of the further properties *)

Lemma no_body_falls_through_witness :
  development None = true
  /\ caught (downstream koa2 no_options render_forbidden secure)
     = Some forbidden
  /\ renders_nothing forbidden (print_error no_options)
     = Resolved (mkStackTrace (JNum 404) JUndefined)
  /\ truthy JUndefined = false
  /\ res_status
       (response_of
          (trace
             (start_webpage_rendering_server
                koa2 None no_options render_forbidden renders_nothing
                secure)))
     = Some (JNum 403).
Proof.
  do 4 (split; [reflexivity|]).
  exact (proj1 (proj2 (proj2 (no_body_falls_through
                                koa2 None no_options render_forbidden
                                renders_nothing secure forbidden _
                                eq_refl eq_refl eq_refl eq_refl)))).
Defined.

Lemma success_leaves_response_witness :
  caught (downstream koa2 with_swallowing_middleware render_forbidden secure)
  = None
  /\ res_body
       (response_of
          (trace
             (start_webpage_rendering_server
                koa2 None with_swallowing_middleware render_forbidden
                renders_page secure)))
     = Some (JStr "oops").
Proof.
  split; [reflexivity|].
  pose proof (proj1 (proj2 (success_leaves_response
                              koa2 None with_swallowing_middleware
                              render_forbidden renders_page secure
                              eq_refl))) as H.
  rewrite H. reflexivity.
Defined.

Lemma counters_of_request_witness :
  custom_middleware (with_handler rethrowing_handler) = []
  /\ increments
       (trace
          (start_webpage_rendering_server
             koa2 None (with_handler rethrowing_handler) render_forbidden
             renders_page (mkRequest "/secure?")))
     = ["request.count"; "request.url.count./secure";
        "request.url.hits./secure"; "requests.errors.handled";
        "requests.errors"].
Proof.
  split; [reflexivity|].
  exact (proj1 (counters_of_request
                  koa2 None (with_handler rethrowing_handler)
                  render_forbidden renders_page (mkRequest "/secure?")
                  eq_refl)).
Defined.

Lemma handled_rejection_response_witness :
  custom_middleware (with_handler redirecting_handler) = []
  /\ render_forbidden secure = Rejected forbidden
  /\ error_handler (with_handler redirecting_handler)
     = Some redirecting_handler
  /\ handler_result (redirecting_handler forbidden "/secure")
     = Resolved JUndefined
  /\ response_of
       (trace
          (start_webpage_rendering_server
             koa2 None (with_handler redirecting_handler) render_forbidden
             renders_page secure))
     = mkResponse None None None None (Some (JStr "/error?code=500")).
Proof.
  do 4 (split; [reflexivity|]).
  exact (proj1 (handled_rejection_response
                  koa2 None (with_handler redirecting_handler)
                  render_forbidden renders_page secure forbidden
                  redirecting_handler JUndefined
                  eq_refl eq_refl eq_refl eq_refl)).
Defined.

Lemma redirect_then_throw_response_witness :
  custom_middleware (with_handler redirecting_then_throwing_handler) = []
  /\ development (Some "production") = false
  /\ render_forbidden secure = Rejected forbidden
  /\ error_handler (with_handler redirecting_then_throwing_handler)
     = Some redirecting_then_throwing_handler
  /\ handler_result (redirecting_then_throwing_handler forbidden "/secure")
     = Rejected forbidden
  /\ response_of
       (trace
          (start_webpage_rendering_server
             koa2 (Some "production")
             (with_handler redirecting_then_throwing_handler)
             render_forbidden renders_page secure))
     = mkResponse (Some (JNum 403)) None None (Some (JStr "Forbidden"))
         (Some (JStr "/error")).
Proof.
  do 5 (split; [reflexivity|]).
  exact (redirect_then_throw_response
           koa2 (Some "production")
           (with_handler redirecting_then_throwing_handler)
           render_forbidden renders_page secure forbidden forbidden
           redirecting_then_throwing_handler
           eq_refl eq_refl eq_refl eq_refl eq_refl).
Defined.

Lemma swallowing_keeps_timers : keeps_timers swallowing_middleware.
Proof.
  intros ctx [t [v|v|e]] H; unfold swallowing_middleware;
    cbn [invoke bind ret try_catch call emit trace fst] in *.
  - rewrite !app_nil_r. exact H.
  - rewrite !app_nil_r. exact H.
  - rewrite count_app, H. reflexivity.
Qed.

Lemma timers_with_custom_middleware_witness :
  Forall keeps_timers (custom_middleware with_swallowing_middleware)
  /\ count (is_finished "request.url.time./secure")
       (trace
          (start_webpage_rendering_server
             koa2 None with_swallowing_middleware render_forbidden
             renders_page secure))
     = 1.
Proof.
  assert (H : Forall keeps_timers
                (custom_middleware with_swallowing_middleware))
    by (constructor; [exact swallowing_keeps_timers|constructor]).
  split; [exact H|].
  exact (proj2 (proj2 (proj2 (timers_with_custom_middleware
                                koa2 None with_swallowing_middleware
                                render_forbidden renders_page secure H)))).
Defined.

Lemma assigned_status_sound_witness :
  custom_middleware no_options = []
  /\ In (Ctx (SetStatus (JNum 403)))
       (trace
          (start_webpage_rendering_server
             koa2 (Some "production") no_options render_forbidden
             renders_page secure))
  /\ (truthy (JNum 403) = true \/ typeof_number (JNum 403) = true).
Proof.
  assert (H : In (Ctx (SetStatus (JNum 403)))
                (trace
                   (start_webpage_rendering_server
                      koa2 (Some "production") no_options render_forbidden
                      renders_page secure)))
    by (vm_compute; repeat first [left; reflexivity | right]).
  split; [reflexivity|]. split; [exact H|].
  exact (assigned_status_sound
           koa2 (Some "production") no_options render_forbidden
           renders_page secure (JNum 403) eq_refl H).
Defined.

(** A status the setter rejects is handled as a rejection of [render]:
    the error handler is called with what the setter threw. *)
Lemma calls_of_request_witness :
  custom_middleware (with_handler rethrowing_handler) = []
  /\ calls
       (trace
          (start_webpage_rendering_server
             koa2 None (with_handler rethrowing_handler)
             render_string_status renders_page secure))
     = [CallRender secure;
        CallErrorHandler (status_error koa2 (JStr "200")) "/secure";
        CallRenderStackTrace (status_error koa2 (JStr "200")) JUndefined].
Proof.
  split; [reflexivity|].
  exact (calls_of_request
           koa2 None (with_handler rethrowing_handler)
           render_string_status renders_page secure eq_refl).
Defined.
